(** * daily_batch.py: the daily multi-model health batch

    A shallow embedding of [src/daily_batch.py].  The script is a straight
    line of statements: a credential check, the creation of the report
    dictionary, three [try]/[except] blocks (one per hosted model), and
    the persistence of the report.  Everything outside the process
    (environment, clock, random generator, HTTP peers, file-system
    faults) is gathered in a record [World]; the statements of the script
    are computations of a state-and-exception monad in which, as in
    Python, the effects performed before an exception is raised are
    kept.

    Conventions.
    - A Python character is an [ascii] (code points below 256) and a
      Python [str] or [bytes] value is a [string].
    - An exception is a value of [exn]: the class name and the text
      [str(e)].  All of them derive from [Exception]; asynchronous
      signals ([KeyboardInterrupt]) are outside the model.
    - Calls taken to return normally: [os.getenv], [os.getcwd], the
      clock, [base64.b64encode], [json.dumps], and the writes to the
      temporary clip, which stand inside a [try].  The calls that stand
      outside every [try] and reach the operating system can raise:
      [os.makedirs], [open], the writes of [json.dump] and [print].
    - The field [assigned] of the state is a history variable: it logs
      the assignments made to [report["results"]] and is read by no
      statement of the script. *)

Set Warnings "-register-all,-abstract-large-number".
From Stdlib Require Import ZArith NArith Ascii String List Lia DecimalString DecimalNat.
From stdpp Require Import base strings gmap.
Import ListNotations.

Local Open Scope string_scope.

(** ** Python strings *)

Module Py.

(** The character [U+0022]. *)
Definition dquote : ascii := "034"%char.

(** [s[:n]] *)
Fixpoint slice_to (n : nat) (s : string) : string :=
  match n, s with
  | S n', String c s' => String c (slice_to n' s')
  | _, _ => EmptyString
  end.

(** [s.startswith(p)] *)
Fixpoint startswith (p s : string) : bool :=
  match p, s with
  | EmptyString, _ => true
  | String a p', String b s' => if Ascii.eqb a b then startswith p' s' else false
  | String _ _, EmptyString => false
  end.

(** [s.endswith("/")] *)
Fixpoint endswith_sep (s : string) : bool :=
  match s with
  | EmptyString => false
  | String c EmptyString => Ascii.eqb c "/"
  | String _ s' => endswith_sep s'
  end.

(** [sep.join(parts)] *)
Fixpoint join (sep : string) (parts : list string) : string :=
  match parts with
  | [] => ""
  | [p] => p
  | p :: ps => p ++ sep ++ join sep ps
  end.

(** [posixpath.join(a, b)] *)
Definition path_join (a b : string) : string :=
  if startswith "/" b then b
  else if (String.length a =? 0)%nat || endswith_sep a then a ++ b
  else a ++ "/" ++ b.

(** [str(n)] for a natural number, and the [%02d] / [%04d] formats. *)
Definition str_nat (n : nat) : string := NilZero.string_of_uint (Nat.to_uint n).

Fixpoint zeros (n : nat) : string :=
  match n with O => "" | S n' => String "0" (zeros n') end.

Definition zfill (width n : nat) : string :=
  let d := str_nat n in zeros (width - String.length d) ++ d.

Definition str_int (z : Z) : string := NilZero.string_of_int (Z.to_int z).

(** Lower-case hexadecimal digits. *)
Definition hex_digit (n : N) : ascii :=
  match n with
  | 0 => "0" | 1 => "1" | 2 => "2" | 3 => "3" | 4 => "4" | 5 => "5"
  | 6 => "6" | 7 => "7" | 8 => "8" | 9 => "9" | 10 => "a" | 11 => "b"
  | 12 => "c" | 13 => "d" | 14 => "e" | _ => "f"
  end%N%char.

Definition hex2 (c : ascii) : string :=
  let n := N_of_ascii c in
  String (hex_digit (N.shiftr n 4)) (String (hex_digit (N.land n 15)) "").

Definition code (c : ascii) : N := N_of_ascii c.

(** [c] is printable ASCII, the class [[ -~]] of the [json] module. *)
Definition printable_ascii (c : ascii) : bool :=
  (32 <=? code c)%N && (code c <=? 126)%N.

(** [str.isprintable] on the code points below 256. *)
Definition isprintable (c : ascii) : bool :=
  printable_ascii c || ((161 <=? code c)%N && negb (code c =? 173)%N).

Fixpoint contains (c : ascii) (s : string) : bool :=
  match s with
  | EmptyString => false
  | String a s' => Ascii.eqb a c || contains c s'
  end.

(** [repr(s)] of a [str]. *)
Definition repr_char (quote c : ascii) : string :=
  if Ascii.eqb c quote || Ascii.eqb c "\" then String "\" (String c "")
  else if (code c =? 9)%N then "\t"
  else if (code c =? 10)%N then "\n"
  else if (code c =? 13)%N then "\r"
  else if isprintable c then String c ""
  else "\x" ++ hex2 c.

Fixpoint repr_chars (quote : ascii) (s : string) : string :=
  match s with
  | EmptyString => ""
  | String c s' => repr_char quote c ++ repr_chars quote s'
  end.

Definition repr_str (s : string) : string :=
  let quote : ascii :=
    if contains "'" s && negb (contains dquote s) then dquote else "'"%char in
  String quote (repr_chars quote s) ++ String quote "".

(** The values [Response.json()] can return.  A [float] is carried by
    its [repr]. *)
Inductive obj : Type :=
| ONone
| OBool (b : bool)
| OInt (z : Z)
| OFloat (repr : string)
| OStr (s : string)
| OList (items : list obj)
| ODict (items : list (string * obj)).

(** [str(o)], which is [repr(o)] except on a [str]. *)
Fixpoint repr (o : obj) : string :=
  match o with
  | ONone => "None"
  | OBool true => "True"
  | OBool false => "False"
  | OInt z => str_int z
  | OFloat r => r
  | OStr s => repr_str s
  | OList l => "[" ++ join ", " (map repr l) ++ "]"
  | ODict l =>
      "{" ++ join ", " (map (fun kv => repr_str (fst kv) ++ ": " ++ repr (snd kv)) l) ++ "}"
  end.

Definition str (o : obj) : string :=
  match o with
  | OStr s => s
  | _ => repr o
  end.

End Py.

(** ** Base64

    [base64.b64encode(data).decode()]: three bytes give four characters
    of the standard alphabet, the last group is padded with [=]. *)

Module Base64.

Definition alphabet : string :=
  "ABCDEFGHIJKLMNOPQRSTUVWXYZabcdefghijklmnopqrstuvwxyz0123456789+/".

Definition sextet (n : N) : ascii :=
  match String.get (N.to_nat (N.land n 63)) alphabet with
  | Some c => c
  | None => "="%char
  end.

Fixpoint b64encode (data : string) : string :=
  match data with
  | EmptyString => ""
  | String a EmptyString =>
      let n := N.shiftl (Py.code a) 16 in
      String (sextet (N.shiftr n 18)) (String (sextet (N.shiftr n 12)) "==")
  | String a (String b EmptyString) =>
      let n := N.lor (N.shiftl (Py.code a) 16) (N.shiftl (Py.code b) 8) in
      String (sextet (N.shiftr n 18))
        (String (sextet (N.shiftr n 12)) (String (sextet (N.shiftr n 6)) "="))
  | String a (String b (String c rest)) =>
      let n := N.lor (N.lor (N.shiftl (Py.code a) 16) (N.shiftl (Py.code b) 8))
                     (Py.code c) in
      String (sextet (N.shiftr n 18))
        (String (sextet (N.shiftr n 12))
          (String (sextet (N.shiftr n 6))
            (String (sextet n) (b64encode rest))))
  end.

End Base64.

(** ** The [json] module: [json.dumps(value, indent=2)]

    The report only holds dictionaries and strings.  Strings are
    written by [py_encode_basestring_ascii] ([ensure_ascii] is left at
    its default). *)

Module Json.

Inductive value : Type :=
| JStr (s : string)
| JObj (members : list (string * value)).

Definition escape_char (c : ascii) : string :=
  if Ascii.eqb c Py.dquote then String "\" (String Py.dquote "")
  else if Ascii.eqb c "\" then "\\"
  else if (Py.code c =? 8)%N then "\b"
  else if (Py.code c =? 12)%N then "\f"
  else if (Py.code c =? 10)%N then "\n"
  else if (Py.code c =? 13)%N then "\r"
  else if (Py.code c =? 9)%N then "\t"
  else if Py.printable_ascii c then String c ""
  else "\u00" ++ Py.hex2 c.

Fixpoint escape (s : string) : string :=
  match s with
  | EmptyString => ""
  | String c s' => escape_char c ++ escape s'
  end.

Definition encode_str (s : string) : string :=
  String Py.dquote (escape s) ++ String Py.dquote "".

Fixpoint spaces (n : nat) : string :=
  match n with O => "" | S n' => String " " (spaces n') end.

(** A line feed followed by the indentation of nesting depth [level]. *)
Definition newline_indent (level : nat) : string :=
  String "010" (spaces (2 * level)).

Fixpoint encode (level : nat) (v : value) : string :=
  match v with
  | JStr s => encode_str s
  | JObj [] => "{}"
  | JObj ms =>
      "{" ++ newline_indent (S level)
      ++ Py.join ("," ++ newline_indent (S level))
           (map (fun kv => encode_str (fst kv) ++ ": " ++ encode (S level) (snd kv)) ms)
      ++ newline_indent level ++ "}"
  end.

Definition dumps (v : value) : string := encode 0 v.

End Json.

(** ** Exceptions and the monad of the script *)

(** An exception: its class and the text [str(e)]. *)
Record exn : Type := Exn { exn_class : string; exn_str : string }.

Inductive result (A : Type) : Type :=
| Ok (a : A)
| Raise (e : exn).
Arguments Ok {A} a.
Arguments Raise {A} e.

(** ** Data model *)

(** The record stored under a model's key of [report["results"]]. *)
Inductive ProbeResult : Type :=
| Success (input output_preview : string)
| Failure (error : string).

(** A Python [dict] with string keys: insertion-ordered, keys unique.
    [d[k] = v] keeps the position of a key that is already there. *)
Definition dict (V : Type) : Type := list (string * V).

Fixpoint dict_set {V} (k : string) (v : V) (d : dict V) : dict V :=
  match d with
  | [] => [(k, v)]
  | (k', v') :: d' =>
      if String.eqb k' k then (k, v) :: d' else (k', v') :: dict_set k v d'
  end.

Fixpoint dict_get {V} (k : string) (d : dict V) : option V :=
  match d with
  | [] => None
  | (k', v') :: d' => if String.eqb k' k then Some v' else dict_get k d'
  end.

Definition dict_keys {V} (d : dict V) : list string := map fst d.

Record Report : Type := mkReport {
  r_date : string;
  r_run_time : string;
  r_results : dict ProbeResult
}.

Definition result_json (r : ProbeResult) : Json.value :=
  match r with
  | Success input preview =>
      Json.JObj [("status", Json.JStr "success");
                 ("input", Json.JStr input);
                 ("output_preview", Json.JStr preview)]
  | Failure error =>
      Json.JObj [("status", Json.JStr "failure"); ("error", Json.JStr error)]
  end.

Definition report_json (r : Report) : Json.value :=
  Json.JObj [("date", Json.JStr (r_date r));
             ("run_time", Json.JStr (r_run_time r));
             ("results", Json.JObj (map (fun kv => (fst kv, result_json (snd kv)))
                                        (r_results r)))].

(** [datetime.date] and the wall-clock time of [datetime.datetime.now()]. *)
Record date : Type := mkDate { year : nat; month : nat; day : nat }.
Record clock : Type := mkClock { hour : nat; minute : nat }.

(** [date.isoformat()] *)
Definition isoformat (d : date) : string :=
  Py.zfill 4 (year d) ++ "-" ++ Py.zfill 2 (month d) ++ "-" ++ Py.zfill 2 (day d).

(** [strftime("%H:%M")] *)
Definition strftime_HM (c : clock) : string :=
  Py.zfill 2 (hour c) ++ ":" ++ Py.zfill 2 (minute c).

(** ** Requests and responses *)

(** [requests.get(url).text] / [.content] with the status line. *)
Record HttpResponse : Type := mkHttpResponse {
  status_code : Z;
  body : string
}.

(** [requests.get(url, stream=True)]: the chunks [iter_content] yields
    and the exception it may raise after them. *)
Record StreamResponse : Type := mkStreamResponse {
  s_status_code : Z;
  s_chunks : list string;
  s_error : option exn
}.

(** The content of the single user message of a chat completion. *)
Inductive Part : Type :=
| PartText (text : string)
| PartImageBase64 (image_base64 : string).

Inductive Content : Type :=
| CText (text : string)
| CParts (parts : list Part).

(** [OpenAI(api_key, base_url, default_headers={"id": ...})] *)
Record Client : Type := mkClient {
  api_key : string;
  base_url : string;
  header_id : string
}.

Record ChatRequest : Type := mkChatRequest {
  c_client : Client;
  c_model : string;
  c_role : string;
  c_content : Content;
  c_max_tokens : nat;
  c_temperature : Z
}.

(** [resp.choices]: each choice carries [message.content], which the
    service may leave [None]. *)
Record ChatCompletion : Type := mkChatCompletion {
  choices : list (option string)
}.

Record PostRequest : Type := mkPostRequest {
  p_url : string;
  p_audio_file : string;
  p_task : string;
  p_language : string;
  p_without_timestamps : bool;
  p_authorization : string;
  p_content_type : string;
  p_timeout : nat
}.

(** The answer to [requests.post]: the status line and what [.json()]
    makes of the body ([Raise] when the body is not JSON). *)
Record PostResponse : Type := mkPostResponse {
  p_status_code : Z;
  p_json : result Py.obj
}.

Inductive NetCall : Type :=
| NetGet (url : string) (stream : bool) (timeout : nat)
| NetChat (req : ChatRequest)
| NetPost (req : PostRequest).

Inductive FsOp : Type :=
| OpMakedirs (path : string)
| OpOpenWrite (path : string)
| OpOpenRead (path : string)
| OpRemove (path : string)
| OpWrite (path : string) (offset : nat)
| OpPrint (offset : nat).

(** ** The world outside the process *)

Record World : Type := mkWorld {
  env_key : option string;                            (* os.getenv("SIMPLISMART_API_KEY") *)
  cwd : string;                                       (* os.getcwd() *)
  today : date;                                       (* datetime.date.today() *)
  now : clock;                                        (* datetime.datetime.now() *)
  draw : nat -> nat;                                  (* the n-th draw of the generator *)
  http_get : string -> result HttpResponse;
  http_get_stream : string -> result StreamResponse;
  http_post : PostRequest -> result PostResponse;
  chat_create : ChatRequest -> result ChatCompletion;
  fs_fault : FsOp -> option exn                       (* an OSError the call raises *)
}.

(** ** The state of the process *)

Record State : Type := mkState {
  report : option Report;          (* the global [report], once assigned *)
  fs : gmap string string;         (* regular files: path to content *)
  net : list NetCall;              (* network calls issued, oldest first *)
  stdout : string;
  draws : nat;                     (* number of draws made so far *)
  assigned : list (string * ProbeResult)
    (* every [report["results"][k] = v] executed, oldest first *)
}.

Definition initial (files : gmap string string) : State :=
  {| report := None; fs := files; net := []; stdout := "";
     draws := 0; assigned := [] |}.

Definition M (A : Type) : Type := State -> State * result A.

Definition ret {A} (a : A) : M A := fun st => (st, Ok a).

Definition raise {A} (e : exn) : M A := fun st => (st, Raise e).

Definition bind {A B} (c : M A) (k : A -> M B) : M B :=
  fun st =>
    match c st with
    | (st', Ok a) => k a st'
    | (st', Raise e) => (st', Raise e)
    end.

(** [try: body  except Exception as e: handler(e)] *)
Definition try_except (body : M unit) (handler : exn -> M unit) : M unit :=
  fun st =>
    match body st with
    | (st', Ok _) => (st', Ok tt)
    | (st', Raise e) => handler e st'
    end.

Declare Scope script_scope.
Delimit Scope script_scope with script.
Notation "x <- c ;; k" := (bind c (fun x => k))
  (at level 100, c at next level, right associativity) : script_scope.
Notation "c ;; k" := (bind c (fun _ => k))
  (at level 100, right associativity) : script_scope.
Local Open Scope script_scope.

(** Lifting the outcome of a call made to the world. *)
Definition lift {A} (r : result A) : M A := fun st => (st, r).

(** ** The calls of the script *)

Definition line_feed : string := String "010" "".

Definition log_call (c : NetCall) : M unit :=
  fun st =>
    ({| report := report st; fs := fs st; net := net st ++ [c];
        stdout := stdout st; draws := draws st; assigned := assigned st |}, Ok tt).

Definition set_fs (files : gmap string string) : M unit :=
  fun st =>
    ({| report := report st; fs := files; net := net st;
        stdout := stdout st; draws := draws st; assigned := assigned st |}, Ok tt).

Definition get_fs : M (gmap string string) := fun st => (st, Ok (fs st)).

(** [random.choice(seq)] *)
Definition random_choice (w : World) (seq : list string) : M string :=
  fun st =>
    let st' := {| report := report st; fs := fs st; net := net st;
                  stdout := stdout st; draws := S (draws st);
                  assigned := assigned st |} in
    match nth_error seq (draw w (draws st) mod List.length seq) with
    | Some x => (st', Ok x)
    | None => (st, Raise (Exn "IndexError" "Cannot choose from an empty sequence"))
    end.

(** [requests.get(url, timeout=t)] *)
Definition requests_get (w : World) (url : string) (timeout : nat) : M HttpResponse :=
  log_call (NetGet url false timeout) ;; lift (http_get w url).

(** [requests.get(url, stream=True, timeout=t)] *)
Definition requests_get_stream (w : World) (url : string) (timeout : nat)
  : M StreamResponse :=
  log_call (NetGet url true timeout) ;; lift (http_get_stream w url).

(** [requests.post(url, json=payload, headers=headers, timeout=t)] *)
Definition requests_post (w : World) (req : PostRequest) : M PostResponse :=
  log_call (NetPost req) ;; lift (http_post w req).

(** [client.chat.completions.create(...)] *)
Definition chat_completions_create (w : World) (req : ChatRequest) : M ChatCompletion :=
  log_call (NetChat req) ;; lift (chat_create w req).

(** [resp.choices[0].message.content[:300]] *)
Definition first_content_preview (resp : ChatCompletion) : result string :=
  match choices resp with
  | [] => Raise (Exn "IndexError" "list index out of range")
  | None :: _ => Raise (Exn "TypeError" "'NoneType' object is not subscriptable")
  | Some content :: _ => Ok (Py.slice_to 300 content)
  end.

Definition fault (w : World) (op : FsOp) : M unit :=
  match fs_fault w op with
  | Some e => raise e
  | None => ret tt
  end.

(** [os.makedirs(path, exist_ok=True)]; directories are not files. *)
Definition os_makedirs (w : World) (path : string) : M unit :=
  fault w (OpMakedirs path).

(** [open(path, "w")] and [open(path, "wb")]: the file is truncated. *)
Definition open_write (w : World) (path : string) : M unit :=
  fault w (OpOpenWrite path) ;;
  files <- get_fs ;;
  set_fs (<[path := ""]> files).

(** [f.write(chunk)] on the file opened at [path]: the chunk reaches the
    file.  Whether a write of [json.dump] fails is settled before it, in
    [write_text]; the writes to the clip are taken to go through. *)
Definition file_write (path chunk : string) : M unit :=
  files <- get_fs ;;
  set_fs (<[path := default "" (files !! path) ++ chunk]> files).

Fixpoint write_chunks (path : string) (chunks : list string) : M unit :=
  match chunks with
  | [] => ret tt
  | chunk :: rest => file_write path chunk ;; write_chunks path rest
  end.

Definition no_such_file (path : string) : exn :=
  Exn "FileNotFoundError" ("[Errno 2] No such file or directory: " ++ Py.repr_str path).

(** [open(path, "rb").read()] *)
Definition read_file (w : World) (path : string) : M string :=
  fault w (OpOpenRead path) ;;
  files <- get_fs ;;
  match files !! path with
  | Some data => ret data
  | None => raise (no_such_file path)
  end.

(** [os.remove(path)] *)
Definition os_remove (w : World) (path : string) : M unit :=
  fault w (OpRemove path) ;;
  files <- get_fs ;;
  match files !! path with
  | Some _ => set_fs (delete path files)
  | None => raise (no_such_file path)
  end.

(** The writes of [json.dump(value, f)] to the file opened at [path],
    [text] being what is left to write from position [offset] on.  The
    operating system can fail a write before any character, and at the
    end, when the file is flushed and closed; what was written before
    stays in the file. *)
Fixpoint write_text (w : World) (path : string) (offset : nat) (text : string)
  : M unit :=
  fault w (OpWrite path offset) ;;
  match text with
  | EmptyString => ret tt
  | String c rest =>
      file_write path (String c "") ;; write_text w path (S offset) rest
  end.

Definition emit (c : ascii) : M unit :=
  fun st =>
    ({| report := report st; fs := fs st; net := net st;
        stdout := stdout st ++ String c ""; draws := draws st;
        assigned := assigned st |}, Ok tt).

(** The writes of [print] to the standard output, which can fail in the
    same way (a closed pipe, a full disk behind a redirection). *)
Fixpoint print_text (w : World) (offset : nat) (text : string) : M unit :=
  fault w (OpPrint offset) ;;
  match text with
  | EmptyString => ret tt
  | String c rest => emit c ;; print_text w (S offset) rest
  end.

(** [print(s)] *)
Definition print (w : World) (s : string) : M unit :=
  print_text w 0 (s ++ line_feed).

Definition name_error (name : string) : exn :=
  Exn "NameError" ("name '" ++ name ++ "' is not defined").

(** [report = {...}] *)
Definition assign_report (r : Report) : M unit :=
  fun st =>
    ({| report := Some r; fs := fs st; net := net st; stdout := stdout st;
        draws := draws st; assigned := assigned st |}, Ok tt).

Definition get_report : M Report :=
  fun st =>
    match report st with
    | Some r => (st, Ok r)
    | None => (st, Raise (name_error "report"))
    end.

(** The report after [report["results"][key] = record]. *)
Definition store (key : string) (record : ProbeResult) (r : Report) : Report :=
  {| r_date := r_date r; r_run_time := r_run_time r;
     r_results := dict_set key record (r_results r) |}.

(** [report["results"][key] = record] *)
Definition set_result (key : string) (record : ProbeResult) : M unit :=
  fun st =>
    match report st with
    | Some r =>
        ({| report := Some (store key record r);
            fs := fs st; net := net st; stdout := stdout st; draws := draws st;
            assigned := assigned st ++ [(key, record)] |}, Ok tt)
    | None => (st, Raise (name_error "report"))
    end.

(** ** The script *)

Definition SIMPLISMART_BASE_URL : string := "https://api.simplismart.live".
Definition WHISPER_URL : string :=
  "https://http.whisper.proxy.prod.s9t.link/model/infer/whisper".

(** [SIMPLISMART_API_KEY = os.getenv(...)]; [if not SIMPLISMART_API_KEY: raise] *)
Definition load_api_key (w : World) : M string :=
  match env_key w with
  | None => raise (Exn "RuntimeError" "SIMPLISMART_API_KEY not set")
  | Some k =>
      if (String.length k =? 0)%nat
      then raise (Exn "RuntimeError" "SIMPLISMART_API_KEY not set")
      else ret k
  end.

Definition BASE_DIR (w : World) : string := cwd w.
Definition OUTPUT_DIR (w : World) : string := Py.path_join (BASE_DIR w) "output".

Definition text_sources : list string :=
  [ "https://www.gutenberg.org/files/84/84-0.txt";
    "https://www.gutenberg.org/files/1342/1342-0.txt";
    "https://www.gutenberg.org/files/11/11-0.txt" ].

Definition audio_sources : list string :=
  [ "https://upload.wikimedia.org/wikipedia/commons/4/45/En-us-hello.ogg";
    "https://upload.wikimedia.org/wikipedia/commons/3/3c/En-us-weather.ogg" ].

Definition image_sources : list string :=
  [ "https://upload.wikimedia.org/wikipedia/commons/4/4b/ReceiptSwiss.jpg";
    "https://upload.wikimedia.org/wikipedia/commons/3/3f/Fax2.png" ].

Definition gpt_key : string := "gpt_oss_120b".
Definition whisper_key : string := "whisper_large_v2".
Definition ocr_key : string := "deepseek_ocr".

Definition gpt_client (key : string) : Client :=
  mkClient key SIMPLISMART_BASE_URL "524436ef-5d4c-4d55-9351-71d67036b92b".

Definition ocr_client (key : string) : Client :=
  mkClient key SIMPLISMART_BASE_URL "81095ce8-515a-442a-8514-d4424ec84ce2".

(** The request of lines 84-89 for the truncated document [text]. *)
Definition gpt_request (key text : string) : ChatRequest :=
  mkChatRequest (gpt_client key) "openai/gpt-oss-120b" "user"
    (CText ("Summarize this text:" ++ line_feed ++ text)) 300 0.

(** Lines 67-95: the body of the first [try]. *)
Definition gpt_body (w : World) (key : string) : M unit :=
  text_url <- random_choice w text_sources ;;
  r <- requests_get w text_url 20 ;;
  let text := Py.slice_to 2000 (body r) in
  resp <- chat_completions_create w (gpt_request key text) ;;
  preview <- lift (first_content_preview resp) ;;
  set_result gpt_key (Success text_url preview).

Definition record_failure (key : string) (e : exn) : M unit :=
  set_result key (Failure (exn_str e)).

(** Lines 66-101. *)
Definition gpt_probe (w : World) (key : string) : M unit :=
  try_except (gpt_body w key) (record_failure gpt_key).

Definition audio_path (w : World) : string :=
  Py.path_join (BASE_DIR w) "sample_audio.ogg".

(** The request of lines 123-140 for the encoded clip. *)
Definition whisper_request (key audio_b64 : string) : PostRequest :=
  mkPostRequest WHISPER_URL audio_b64 "transcribe" "en" true
    ("Bearer " ++ key) "application/json" 60.

(** Lines 107-148: the body of the second [try]. *)
Definition whisper_body (w : World) (key : string) : M unit :=
  audio_url <- random_choice w audio_sources ;;
  r <- requests_get_stream w audio_url 30 ;;
  open_write w (audio_path w) ;;
  write_chunks (audio_path w) (s_chunks r) ;;
  match s_error r with Some e => raise e | None => ret tt end ;;
  data <- read_file w (audio_path w) ;;
  let audio_b64 := Base64.b64encode data in
  post <- requests_post w (whisper_request key audio_b64) ;;
  resp <- lift (p_json post) ;;
  set_result whisper_key (Success audio_url (Py.slice_to 300 (Py.str resp))) ;;
  os_remove w (audio_path w).

(** Lines 106-154. *)
Definition whisper_probe (w : World) (key : string) : M unit :=
  try_except (whisper_body w key) (record_failure whisper_key).

(** The request of lines 177-188 for the encoded image. *)
Definition ocr_request (key image_b64 : string) : ChatRequest :=
  mkChatRequest (ocr_client key) "deepseek-ai/DeepSeek-OCR" "user"
    (CParts [PartText "Extract all readable text from this image";
             PartImageBase64 image_b64]) 500 0.

(** Lines 160-194: the body of the third [try]. *)
Definition ocr_body (w : World) (key : string) : M unit :=
  image_url <- random_choice w image_sources ;;
  r <- requests_get w image_url 20 ;;
  let image_b64 := Base64.b64encode (body r) in
  resp <- chat_completions_create w (ocr_request key image_b64) ;;
  preview <- lift (first_content_preview resp) ;;
  set_result ocr_key (Success image_url preview).

(** Lines 159-200. *)
Definition ocr_probe (w : World) (key : string) : M unit :=
  try_except (ocr_body w key) (record_failure ocr_key).

(** Lines 205-208. *)
Definition output_path (w : World) : string :=
  Py.path_join (OUTPUT_DIR w) ("daily_model_health_" ++ isoformat (today w) ++ ".json").

(** Lines 210-211: [with open(output_path, "w") as f: json.dump(report, f, indent=2)] *)
Definition save_report (w : World) : M unit :=
  open_write w (output_path w) ;;
  r <- get_report ;;
  write_text w (output_path w) 0 (Json.dumps (report_json r)).

(** Line 213: [print(json.dumps(report, indent=2))] *)
Definition print_report (w : World) : M unit :=
  r <- get_report ;;
  print w (Json.dumps (report_json r)).

(** The three probes, in the order of the file. *)
Definition probes (w : World) (key : string) : M unit :=
  gpt_probe w key ;; whisper_probe w key ;; ocr_probe w key.

(** The whole module, top to bottom. *)
Definition script (w : World) : M unit :=
  key <- load_api_key w ;;
  os_makedirs w (OUTPUT_DIR w) ;;
  assign_report {| r_date := isoformat (today w);
                   r_run_time := strftime_HM (now w);
                   r_results := [] |} ;;
  probes w key ;;
  save_report w ;;
  print_report w.

(** One run of the script in a world, from the files already on disk. *)
Definition run (w : World) (files : gmap string string) : State * result unit :=
  script w (initial files).

Definition completes (w : World) (files : gmap string string) : Prop :=
  (run w files).2 = Ok tt.

Definition final (w : World) (files : gmap string string) : State :=
  (run w files).1.

(** The entries of [report["results"]] held by a state. *)
Definition results_of (st : State) : dict ProbeResult :=
  match report st with
  | Some r => r_results r
  | None => []
  end.

Definition entry (key : string) (st : State) : option ProbeResult :=
  dict_get key (results_of st).

(** The three models, in the order of the file; each probe makes one
    draw, so the probe of the [n]-th model consumes draw [n]. *)
Inductive Model : Type := GptOss120b | WhisperLargeV2 | DeepseekOcr.

Definition model_key (m : Model) : string :=
  match m with
  | GptOss120b => gpt_key
  | WhisperLargeV2 => whisper_key
  | DeepseekOcr => ocr_key
  end.

Definition model_draw (m : Model) : nat :=
  match m with
  | GptOss120b => 0
  | WhisperLargeV2 => 1
  | DeepseekOcr => 2
  end.

Definition model_body (m : Model) (w : World) (key : string) : M unit :=
  match m with
  | GptOss120b => gpt_body w key
  | WhisperLargeV2 => whisper_body w key
  | DeepseekOcr => ocr_body w key
  end.

Definition model_probe (m : Model) (w : World) (key : string) : M unit :=
  match m with
  | GptOss120b => gpt_probe w key
  | WhisperLargeV2 => whisper_probe w key
  | DeepseekOcr => ocr_probe w key
  end.

(** The statements of the script that precede the probe of [m]. *)
Definition before (m : Model) (w : World) (key : string) : M unit :=
  os_makedirs w (OUTPUT_DIR w) ;;
  assign_report {| r_date := isoformat (today w);
                   r_run_time := strftime_HM (now w);
                   r_results := [] |} ;;
  match m with
  | GptOss120b => ret tt
  | WhisperLargeV2 => gpt_probe w key
  | DeepseekOcr => gpt_probe w key ;; whisper_probe w key
  end.

(** The state in which the probe of [m] starts. *)
Definition state_before (m : Model) (w : World) (key : string)
    (files : gmap string string) : State :=
  (before m w key (initial files)).1.

(** ** The probes as functions of the answers of the world

    What each [try] block leaves behind is determined by the answers the
    world gives to its calls.  The functions below read these effects
    off the answers; the lemmas of the next part show that the script
    computes exactly them. *)

(** The element [random.choice] returns at draw [n]. *)
Definition pick (w : World) (n : nat) (seq : list string) : string :=
  nth (draw w n mod List.length seq) seq "".

Definition and_then {A B} (r : result A) (k : A -> result B) : result B :=
  match r with
  | Ok a => k a
  | Raise e => Raise e
  end.

(** The record an [except] branch stores for a raised exception. *)
Definition settle (r : result ProbeResult) : ProbeResult :=
  match r with
  | Ok record => record
  | Raise e => Failure (exn_str e)
  end.

Definition faulted (w : World) (op : FsOp) : result unit :=
  match fs_fault w op with
  | Some e => Raise e
  | None => Ok tt
  end.

Definition gpt_outcome (w : World) (key : string) (n : nat) : result ProbeResult :=
  let url := pick w n text_sources in
  and_then (http_get w url) (fun r =>
  and_then (chat_create w (gpt_request key (Py.slice_to 2000 (body r)))) (fun resp =>
  and_then (first_content_preview resp) (fun preview =>
  Ok (Success url preview)))).

Definition gpt_calls (w : World) (key : string) (n : nat) : list NetCall :=
  let url := pick w n text_sources in
  NetGet url false 20 ::
  match http_get w url with
  | Ok r => [NetChat (gpt_request key (Py.slice_to 2000 (body r)))]
  | Raise _ => []
  end.

Definition ocr_outcome (w : World) (key : string) (n : nat) : result ProbeResult :=
  let url := pick w n image_sources in
  and_then (http_get w url) (fun r =>
  and_then (chat_create w (ocr_request key (Base64.b64encode (body r)))) (fun resp =>
  and_then (first_content_preview resp) (fun preview =>
  Ok (Success url preview)))).

Definition ocr_calls (w : World) (key : string) (n : nat) : list NetCall :=
  let url := pick w n image_sources in
  NetGet url false 20 ::
  match http_get w url with
  | Ok r => [NetChat (ocr_request key (Base64.b64encode (body r)))]
  | Raise _ => []
  end.

(** The bytes read back from the temporary clip. *)
Definition whisper_download (w : World) (n : nat) : result string :=
  and_then (http_get_stream w (pick w n audio_sources)) (fun r =>
  and_then (faulted w (OpOpenWrite (audio_path w))) (fun _ =>
  and_then (match s_error r with Some e => Raise e | None => Ok tt end) (fun _ =>
  and_then (faulted w (OpOpenRead (audio_path w))) (fun _ =>
  Ok (String.concat "" (s_chunks r)))))).

(** The record of lines 142-146, when the body gets that far. *)
Definition whisper_outcome (w : World) (key : string) (n : nat) : result ProbeResult :=
  and_then (whisper_download w n) (fun data =>
  and_then (http_post w (whisper_request key (Base64.b64encode data))) (fun post =>
  and_then (p_json post) (fun resp =>
  Ok (Success (pick w n audio_sources) (Py.slice_to 300 (Py.str resp)))))).

(** The records stored under [whisper_large_v2], oldest first. *)
Definition whisper_history (w : World) (key : string) (n : nat) : list ProbeResult :=
  match whisper_outcome w key n with
  | Raise e => [Failure (exn_str e)]
  | Ok record =>
      match fs_fault w (OpRemove (audio_path w)) with
      | None => [record]
      | Some e => [record; Failure (exn_str e)]
      end
  end.

Definition whisper_record (w : World) (key : string) (n : nat) : ProbeResult :=
  List.last (whisper_history w key n) (Failure "").

Definition whisper_calls (w : World) (key : string) (n : nat) : list NetCall :=
  NetGet (pick w n audio_sources) true 30 ::
  match whisper_download w n with
  | Ok data => [NetPost (whisper_request key (Base64.b64encode data))]
  | Raise _ => []
  end.

(** The report the three probes leave behind. *)
Definition probed_report (w : World) (key : string) : Report :=
  {| r_date := isoformat (today w);
     r_run_time := strftime_HM (now w);
     r_results := [ (gpt_key, settle (gpt_outcome w key 0));
                    (whisper_key, whisper_record w key 1);
                    (ocr_key, settle (ocr_outcome w key 2)) ] |}.

Definition probed_assignments (w : World) (key : string) : list (string * ProbeResult) :=
  (gpt_key, settle (gpt_outcome w key 0))
  :: map (pair whisper_key) (whisper_history w key 1)
  ++ [(ocr_key, settle (ocr_outcome w key 2))].

Definition probed_calls (w : World) (key : string) : list NetCall :=
  gpt_calls w key 0 ++ whisper_calls w key 1 ++ ocr_calls w key 2.

(** The answers the probe of a model depends on are the same in two
    worlds. *)
Definition same_answers (m : Model) (w w' : World) : Prop :=
  draw w (model_draw m) = draw w' (model_draw m) /\
  match m with
  | GptOss120b =>
      (forall url, In url text_sources -> http_get w url = http_get w' url) /\
      (forall req, c_model req = "openai/gpt-oss-120b" ->
                   chat_create w req = chat_create w' req)
  | WhisperLargeV2 =>
      cwd w = cwd w' /\
      (forall url, In url audio_sources ->
                   http_get_stream w url = http_get_stream w' url) /\
      (forall req, http_post w req = http_post w' req) /\
      (forall op, In op [OpOpenWrite (audio_path w); OpOpenRead (audio_path w);
                         OpRemove (audio_path w)] ->
                  fs_fault w op = fs_fault w' op)
  | DeepseekOcr =>
      (forall url, In url image_sources -> http_get w url = http_get w' url) /\
      (forall req, c_model req = "deepseek-ai/DeepSeek-OCR" ->
                   chat_create w req = chat_create w' req)
  end.

(** The credential check of lines 40-42 lets the run through with [key]. *)
Definition credential (w : World) (key : string) : Prop :=
  env_key w = Some key /\ key <> "".

Definition credential_missing (w : World) : Prop :=
  env_key w = None \/ env_key w = Some "".

(** The run got past the credential check and the creation of the
    output directory: the probes run and the script reaches the step
    that writes the report. *)
Definition reaches_report (w : World) (key : string) : Prop :=
  credential w key /\ fs_fault w (OpMakedirs (OUTPUT_DIR w)) = None.

(** What the probe of a model leaves under its key. *)
Definition model_record (m : Model) (w : World) (key : string) : ProbeResult :=
  match m with
  | GptOss120b => settle (gpt_outcome w key 0)
  | WhisperLargeV2 => whisper_record w key 1
  | DeepseekOcr => settle (ocr_outcome w key 2)
  end.

(** The state a [try] block leaves, from the state [st] it started in. *)
Definition after_probe (st : State) (r : Report) (files : gmap string string)
    (calls : list NetCall) (records : list (string * ProbeResult)) : State :=
  {| report := Some r;
     fs := files;
     net := net st ++ calls;
     stdout := stdout st;
     draws := S (draws st);
     assigned := assigned st ++ records |}.

(** The state after the third probe, and after the report is saved and
    printed; [files'] is the disk the audio probe leaves. *)
Definition probed_state (w : World) (key : string) (files' : gmap string string) : State :=
  {| report := Some (probed_report w key);
     fs := files';
     net := probed_calls w key;
     stdout := "";
     draws := 3;
     assigned := probed_assignments w key |}.

Definition saved_state (w : World) (key : string) (files' : gmap string string) : State :=
  {| report := Some (probed_report w key);
     fs := <[output_path w := Json.dumps (report_json (probed_report w key))]> files';
     net := probed_calls w key;
     stdout := Json.dumps (report_json (probed_report w key)) ++ line_feed;
     draws := 3;
     assigned := probed_assignments w key |}.

(** How many characters a sequence of writes puts down before the first
    failure, and the exception of that failure; [None] when every write
    and the final flush go through. *)
Fixpoint first_fault (fault_at : nat -> option exn) (offset : nat) (text : string)
  : option (nat * exn) :=
  match fault_at offset with
  | Some e => Some (0%nat, e)
  | None =>
      match text with
      | EmptyString => None
      | String _ rest =>
          match first_fault fault_at (S offset) rest with
          | Some (n, e) => Some (S n, e)
          | None => None
          end
      end
  end.

(** The serialised report of a run that got through the probes. *)
Definition probed_text (w : World) (key : string) : string :=
  Json.dumps (report_json (probed_report w key)).

Definition dump_fault (w : World) (key : string) : option (nat * exn) :=
  first_fault (fun n => fs_fault w (OpWrite (output_path w) n)) 0 (probed_text w key).

Definition print_fault (w : World) (key : string) : option (nat * exn) :=
  first_fault (fun n => fs_fault w (OpPrint n)) 0 (probed_text w key ++ line_feed).

(** The state of a run stopped by [json.dump] after [n] characters, and
    of a run stopped by [print] after [n] characters. *)
Definition half_saved_state (w : World) (key : string) (files' : gmap string string)
    (n : nat) : State :=
  {| report := Some (probed_report w key);
     fs := <[output_path w := Py.slice_to n (probed_text w key)]> files';
     net := probed_calls w key;
     stdout := "";
     draws := 3;
     assigned := probed_assignments w key |}.

Definition half_printed_state (w : World) (key : string) (files' : gmap string string)
    (n : nat) : State :=
  {| report := Some (probed_report w key);
     fs := <[output_path w := probed_text w key]> files';
     net := probed_calls w key;
     stdout := Py.slice_to n (probed_text w key ++ line_feed);
     draws := 3;
     assigned := probed_assignments w key |}.

(** What is left of a run once the probes are through: the report file
    is opened, written, and the report printed. *)
Definition persisted (w : World) (key : string) (files' : gmap string string)
  : State * result unit :=
  match fs_fault w (OpOpenWrite (output_path w)) with
  | Some e => (probed_state w key files', Raise e)
  | None =>
      match dump_fault w key with
      | Some (n, e) => (half_saved_state w key files' n, Raise e)
      | None =>
          match print_fault w key with
          | Some (n, e) => (half_printed_state w key files' n, Raise e)
          | None => (saved_state w key files', Ok tt)
          end
      end
  end.

(** Number of assignments made to a key. *)
Definition assignments_to (key : string) (st : State) : nat :=
  List.length (filter (fun kv => String.eqb (fst kv) key) (assigned st)).

(** A stored record whose preview, if it has one, is at most 300
    characters long. *)
Definition short_preview (kv : string * ProbeResult) : Prop :=
  match kv.2 with
  | Success _ preview => (String.length preview <= 300)%nat
  | Failure _ => True
  end.

(** ** Concrete worlds *)

Module Sample.

Definition no_fault : FsOp -> option exn := fun _ => None.

Definition permission_denied (path : string) : exn :=
  Exn "PermissionError" ("[Errno 13] Permission denied: " ++ Py.repr_str path).

Definition is_text_source (url : string) : bool :=
  Py.startswith "https://www.gutenberg.org/" url.

(** Every upstream answers. *)
Definition healthy : World :=
  {| env_key := Some "sk-test";
     cwd := "/srv/batch";
     today := mkDate 2024 3 9;
     now := mkClock 7 5;
     draw := fun n => n;
     http_get := fun _ => Ok (mkHttpResponse 200 "Alice was beginning to get very tired");
     http_get_stream := fun _ => Ok (mkStreamResponse 200 ["Ogg"; "S"] None);
     http_post := fun _ => Ok (mkPostResponse 200 (Ok (Py.ODict [("text", Py.OStr "Hello")])));
     chat_create := fun _ => Ok (mkChatCompletion [Some "A short summary."]);
     fs_fault := no_fault |}.

(** The variable is not set. *)
Definition no_key : World :=
  {| env_key := None;
     cwd := cwd healthy; today := today healthy; now := now healthy;
     draw := draw healthy; http_get := http_get healthy;
     http_get_stream := http_get_stream healthy; http_post := http_post healthy;
     chat_create := chat_create healthy; fs_fault := no_fault |}.

(** The text source answers 500 with an error page. *)
Definition text_500 : World :=
  {| env_key := Some "sk-test";
     cwd := cwd healthy; today := today healthy; now := now healthy;
     draw := draw healthy;
     http_get := fun url =>
       if is_text_source url
       then Ok (mkHttpResponse 500 "<h1>500 Internal Server Error</h1>")
       else http_get healthy url;
     http_get_stream := http_get_stream healthy; http_post := http_post healthy;
     chat_create := chat_create healthy; fs_fault := no_fault |}.

(** The text source cannot be reached. *)
Definition text_down : World :=
  {| env_key := Some "sk-test";
     cwd := cwd healthy; today := today healthy; now := now healthy;
     draw := draw healthy;
     http_get := fun url =>
       if is_text_source url
       then Raise (Exn "ConnectionError" "Max retries exceeded with url: /files/84/84-0.txt")
       else http_get healthy url;
     http_get_stream := http_get_stream healthy; http_post := http_post healthy;
     chat_create := chat_create healthy; fs_fault := no_fault |}.

(** The working directory cannot be written to. *)
Definition read_only : World :=
  {| env_key := Some "sk-test";
     cwd := cwd healthy; today := today healthy; now := now healthy;
     draw := draw healthy; http_get := http_get healthy;
     http_get_stream := http_get_stream healthy; http_post := http_post healthy;
     chat_create := chat_create healthy;
     fs_fault := fun op =>
       match op with
       | OpMakedirs path => Some (permission_denied path)
       | _ => None
       end |}.

(** The clip is written and read back, but cannot be removed. *)
Definition stuck_clip : World :=
  {| env_key := Some "sk-test";
     cwd := cwd healthy; today := today healthy; now := now healthy;
     draw := draw healthy; http_get := http_get healthy;
     http_get_stream := http_get_stream healthy; http_post := http_post healthy;
     chat_create := chat_create healthy;
     fs_fault := fun op =>
       match op with
       | OpRemove path => Some (permission_denied path)
       | _ => None
       end |}.

(** The audio service answers 500 with a JSON body. *)
Definition whisper_500 : World :=
  {| env_key := Some "sk-test";
     cwd := cwd healthy; today := today healthy; now := now healthy;
     draw := draw healthy; http_get := http_get healthy;
     http_get_stream := http_get_stream healthy;
     http_post := fun _ =>
       Ok (mkPostResponse 500 (Ok (Py.ODict [("detail", Py.OStr "Internal Server Error")])));
     chat_create := chat_create healthy; fs_fault := no_fault |}.

(** No upstream can be reached. *)
Definition all_down : World :=
  {| env_key := Some "sk-test";
     cwd := cwd healthy; today := today healthy; now := now healthy;
     draw := draw healthy;
     http_get := fun _ => Raise (Exn "ConnectionError" "Connection refused");
     http_get_stream := fun _ => Raise (Exn "ConnectTimeout" "timed out");
     http_post := http_post healthy;
     chat_create := chat_create healthy; fs_fault := no_fault |}.

(** The same day, later: another clock, other answers. *)
Definition healthy_later : World :=
  {| env_key := Some "sk-test";
     cwd := cwd healthy; today := today healthy; now := mkClock 18 40;
     draw := fun n => S n; http_get := http_get healthy;
     http_get_stream := http_get_stream healthy; http_post := http_post healthy;
     chat_create := fun _ => Ok (mkChatCompletion [Some "Another summary."]);
     fs_fault := no_fault |}.

End Sample.

(** ** Further notions *)

(** The disk the audio probe leaves: the clip is created by
    [open(audio_path, "wb")], filled by the chunks, and removed only when
    the body reaches [os.remove] and that call returns. *)
Definition clip_after (w : World) (key : string) (n : nat)
    (files : gmap string string) : gmap string string :=
  match http_get_stream w (pick w n audio_sources) with
  | Raise _ => files
  | Ok r =>
      match fs_fault w (OpOpenWrite (audio_path w)) with
      | Some _ => files
      | None =>
          match whisper_outcome w key n, fs_fault w (OpRemove (audio_path w)) with
          | Ok _, None => delete (audio_path w) files
          | _, _ => <[audio_path w := String.concat "" (s_chunks r)]> files
          end
      end
  end.

(** The candidate inputs of a model. *)
Definition model_sources (m : Model) : list string :=
  match m with
  | GptOss120b => text_sources
  | WhisperLargeV2 => audio_sources
  | DeepseekOcr => image_sources
  end.

Definition is_get (c : NetCall) : bool :=
  match c with
  | NetGet _ _ _ => true
  | _ => false
  end.

(** The invariant of [datetime.date]: [MINYEAR <= year <= MAXYEAR], a
    month of the year, a day of a month. *)
Definition valid_date (d : date) : Prop :=
  (1 <= year d <= 9999)%nat /\ (1 <= month d <= 12)%nat /\ (1 <= day d <= 31)%nat.

(** Every character belongs to the base64 alphabet or is the padding. *)
Fixpoint base64_text (s : string) : bool :=
  match s with
  | EmptyString => true
  | String c s' =>
      (Py.contains c Base64.alphabet || Ascii.eqb c "=") && base64_text s'
  end.

(** The [output_preview] of a record, the empty string when it has none. *)
Definition output_preview_of (r : ProbeResult) : string :=
  match r with
  | Success _ preview => preview
  | Failure _ => ""
  end.

(** ["s"], for a text that needs no escape. *)
Definition quoted (s : string) : string := String Py.dquote s ++ String Py.dquote "".

(** The lines [json.dump(..., indent=2)] writes for one entry of
    [results], [comma] being what follows its closing brace. *)
Definition entry_lines (key : string) (r : ProbeResult) (comma : string) : list string :=
  match r with
  | Success input preview =>
      [ "    " ++ quoted key ++ ": {";
        "      " ++ quoted "status" ++ ": " ++ quoted "success" ++ ",";
        "      " ++ quoted "input" ++ ": " ++ Json.encode_str input ++ ",";
        "      " ++ quoted "output_preview" ++ ": " ++ Json.encode_str preview;
        "    }" ++ comma ]
  | Failure error =>
      [ "    " ++ quoted key ++ ": {";
        "      " ++ quoted "status" ++ ": " ++ quoted "failure" ++ ",";
        "      " ++ quoted "error" ++ ": " ++ Json.encode_str error;
        "    }" ++ comma ]
  end.

(** The text of a report with its three entries, line by line. *)
Definition report_layout (date run_time : string) (text audio image : ProbeResult)
  : string :=
  Py.join line_feed
    ([ "{";
       "  " ++ quoted "date" ++ ": " ++ Json.encode_str date ++ ",";
       "  " ++ quoted "run_time" ++ ": " ++ Json.encode_str run_time ++ ",";
       "  " ++ quoted "results" ++ ": {" ]
     ++ entry_lines "gpt_oss_120b" text ","
     ++ entry_lines "whisper_large_v2" audio ","
     ++ entry_lines "deepseek_ocr" image ""
     ++ [ "  }"; "}" ]).

(** The number a text of decimal digits stands for. *)
Definition decimal (s : string) : option nat :=
  option_map Nat.of_uint (NilEmpty.uint_of_string s).

(** ** Further worlds *)

Module Scenario.


(** The image model answers with no choice at all. *)
Definition ocr_no_choice : World :=
  {| env_key := Some "sk-test";
     cwd := cwd Sample.healthy; today := today Sample.healthy; now := now Sample.healthy;
     draw := draw Sample.healthy; http_get := http_get Sample.healthy;
     http_get_stream := http_get_stream Sample.healthy;
     http_post := http_post Sample.healthy;
     chat_create := fun req =>
       if String.eqb (c_model req) "deepseek-ai/DeepSeek-OCR"
       then Ok (mkChatCompletion [])
       else chat_create Sample.healthy req;
     fs_fault := Sample.no_fault |}.

(** The day after [Sample.healthy], in the same directory. *)
Definition next_day : World :=
  {| env_key := Some "sk-test";
     cwd := cwd Sample.healthy; today := mkDate 2024 3 10; now := mkClock 7 5;
     draw := draw Sample.healthy; http_get := http_get Sample.healthy;
     http_get_stream := http_get_stream Sample.healthy;
     http_post := http_post Sample.healthy;
     chat_create := chat_create Sample.healthy; fs_fault := Sample.no_fault |}.

(** The disk fills up while [json.dump] writes the report. *)
Definition disk_full : World :=
  {| env_key := Some "sk-test";
     cwd := cwd Sample.healthy; today := today Sample.healthy; now := now Sample.healthy;
     draw := draw Sample.healthy; http_get := http_get Sample.healthy;
     http_get_stream := http_get_stream Sample.healthy;
     http_post := http_post Sample.healthy;
     chat_create := chat_create Sample.healthy;
     fs_fault := fun op =>
       match op with
       | OpWrite _ 40 => Some (Exn "OSError" "[Errno 28] No space left on device")
       | _ => None
       end |}.

(** The reader of the standard output has gone away. *)
Definition closed_pipe : World :=
  {| env_key := Some "sk-test";
     cwd := cwd Sample.healthy; today := today Sample.healthy; now := now Sample.healthy;
     draw := draw Sample.healthy; http_get := http_get Sample.healthy;
     http_get_stream := http_get_stream Sample.healthy;
     http_post := http_post Sample.healthy;
     chat_create := chat_create Sample.healthy;
     fs_fault := fun op =>
       match op with
       | OpPrint 0 => Some (Exn "BrokenPipeError" "[Errno 32] Broken pipe")
       | _ => None
       end |}.

(** The text source serves a document of 2500 characters. *)
Definition long_document : World :=
  {| env_key := Some "sk-test";
     cwd := cwd Sample.healthy; today := today Sample.healthy; now := now Sample.healthy;
     draw := draw Sample.healthy;
     http_get := fun _ => Ok (mkHttpResponse 200 (Py.zeros 2500));
     http_get_stream := http_get_stream Sample.healthy;
     http_post := http_post Sample.healthy;
     chat_create := chat_create Sample.healthy; fs_fault := Sample.no_fault |}.

(** A disk on which an earlier run left its clip behind. *)
Definition stale_clip : gmap string string :=
  {[ "/srv/batch/sample_audio.ogg" := "bytes of yesterday" ]}.

End Scenario.

(** * Properties of the script *)

(** ** The model at work *)

Example isoformat_pads : isoformat (mkDate 2024 3 9) = "2024-03-09".
Proof. reflexivity. Qed.

Example strftime_pads : strftime_HM (mkClock 7 5) = "07:05".
Proof. reflexivity. Qed.

Example b64encode_pads :
  Base64.b64encode "Man" = "TWFu" /\ Base64.b64encode "Ma" = "TWE="
  /\ Base64.b64encode "M" = "TQ==".
Proof. repeat split. Qed.

Example path_join_posix :
  Py.path_join "/srv/batch" "output" = "/srv/batch/output"
  /\ Py.path_join "/" "output" = "/output".
Proof. repeat split. Qed.

Example healthy_run_completes :
  completes Sample.healthy ∅
  /\ dict_keys (results_of (final Sample.healthy ∅)) = [gpt_key; whisper_key; ocr_key]
  /\ draws (final Sample.healthy ∅) = 3%nat.
Proof. vm_compute. repeat split. Qed.

Example all_down_run_completes :
  completes Sample.all_down ∅
  /\ results_of (final Sample.all_down ∅)
     = [ (gpt_key, Failure "Connection refused");
         (whisper_key, Failure "timed out");
         (ocr_key, Failure "Connection refused") ]
  /\ net (final Sample.all_down ∅)
     = [ NetGet "https://www.gutenberg.org/files/84/84-0.txt" false 20;
         NetGet "https://upload.wikimedia.org/wikipedia/commons/3/3c/En-us-weather.ogg" true 30;
         NetGet "https://upload.wikimedia.org/wikipedia/commons/4/4b/ReceiptSwiss.jpg" false 20 ].
Proof. vm_compute. repeat split. Qed.

Example closed_pipe_run_stops_at_print :
  (run Scenario.closed_pipe ∅).2 = Raise (Exn "BrokenPipeError" "[Errno 32] Broken pipe")
  /\ stdout (final Scenario.closed_pipe ∅) = ""
  /\ dict_keys (results_of (final Scenario.closed_pipe ∅)) = [gpt_key; whisper_key; ocr_key]
  /\ is_Some (fs (final Scenario.closed_pipe ∅) !! output_path Scenario.closed_pipe).
Proof. vm_compute. repeat split. by eexists. Qed.

Example disk_full_run_stops_at_dump :
  (run Scenario.disk_full ∅).2 = Raise (Exn "OSError" "[Errno 28] No space left on device")
  /\ stdout (final Scenario.disk_full ∅) = ""
  /\ dict_keys (results_of (final Scenario.disk_full ∅)) = [gpt_key; whisper_key; ocr_key]
  /\ option_map String.length
       (fs (final Scenario.disk_full ∅) !! output_path Scenario.disk_full) = Some 40%nat.
Proof. vm_compute. repeat split. Qed.

(** ** Strings and dictionaries *)

Lemma append_cons (c : ascii) (a b : string) : String c a ++ b = String c (a ++ b).
Proof. reflexivity. Qed.

Lemma append_nil_r (s : string) : s ++ "" = s.
Proof. induction s as [|c s IH]; [done|]. by rewrite append_cons, IH. Qed.

Lemma append_assoc (a b c : string) : (a ++ b) ++ c = a ++ b ++ c.
Proof. induction a as [|x a IH]; [done|]. by rewrite !append_cons, IH. Qed.

Lemma concat_cons (x : string) (xs : list string) :
  String.concat "" (x :: xs) = x ++ String.concat "" xs.
Proof. destruct xs; [by rewrite append_nil_r | done]. Qed.

Lemma slice_to_length n s : (String.length (Py.slice_to n s) <= n)%nat.
Proof.
  revert s; induction n as [|n IH]; intros [|c s]; simpl; try lia.
  specialize (IH s). lia.
Qed.

(** [s[:n]] is a prefix of [s], and all of [s] when [s] is short. *)
Lemma slice_to_prefix n s :
  exists rest, s = Py.slice_to n s ++ rest /\
               (rest <> "" -> String.length (Py.slice_to n s) = n).
Proof.
  revert s; induction n as [|n IH]; intros s.
  - exists s. by destruct s.
  - destruct s as [|c s]; [by exists ""|].
    destruct (IH s) as (rest & Hs & Hlen). exists rest. split.
    + simpl. rewrite append_cons. congruence.
    + intros Hne. simpl. by rewrite Hlen.
Qed.

Lemma dict_set_twice {V} k (a b : V) d : dict_set k b (dict_set k a d) = dict_set k b d.
Proof.
  induction d as [|[k' v'] d IH]; simpl.
  - by rewrite String.eqb_refl.
  - destruct (String.eqb k' k) eqn:E; simpl; rewrite ?String.eqb_refl, ?E; congruence.
Qed.

Lemma dict_get_set_eq {V} k (v : V) d : dict_get k (dict_set k v d) = Some v.
Proof.
  induction d as [|[k' v'] d IH]; simpl.
  - by rewrite String.eqb_refl.
  - destruct (String.eqb k' k) eqn:E; simpl; by rewrite ?String.eqb_refl, ?E.
Qed.

(** ** The calls *)

#[local] Arguments Py.slice_to : simpl never.
#[local] Arguments Base64.b64encode : simpl never.
#[local] Arguments pick : simpl never.
#[local] Arguments Py.str : simpl never.
#[local] Arguments Py.path_join : simpl never.

Lemma pick_In w n seq : seq <> [] -> In (pick w n seq) seq.
Proof.
  intros Hne. unfold pick. apply nth_In.
  apply Nat.mod_upper_bound. by destruct seq.
Qed.

Lemma random_choice_run w seq st :
  seq <> [] ->
  random_choice w seq st =
    ({| report := report st; fs := fs st; net := net st; stdout := stdout st;
        draws := S (draws st); assigned := assigned st |},
     Ok (pick w (draws st) seq)).
Proof.
  intros Hne. unfold random_choice, pick.
  destruct (nth_error seq (draw w (draws st) mod List.length seq)) as [x|] eqn:E.
  - by rewrite (nth_error_nth _ _ _ E).
  - apply nth_error_None in E.
    assert (List.length seq <> 0)%nat by (destruct seq; simpl; congruence).
    pose proof (Nat.mod_upper_bound (draw w (draws st)) (List.length seq)). lia.
Qed.

Lemma write_chunks_run path chunks st data :
  fs st !! path = Some data ->
  write_chunks path chunks st =
    ({| report := report st;
        fs := <[path := data ++ String.concat "" chunks]> (fs st);
        net := net st; stdout := stdout st; draws := draws st;
        assigned := assigned st |}, Ok tt).
Proof.
  revert st data. induction chunks as [|chunk rest IH]; intros st data Hd.
  - destruct st; simpl in *. unfold ret. rewrite append_nil_r, insert_id; done.
  - rewrite concat_cons. cbn [write_chunks]. unfold bind at 1.
    unfold file_write, bind, get_fs, set_fs.
    rewrite Hd. cbn [default].
    erewrite IH; cbn [fs]; [|apply lookup_insert_eq].
    cbn. by rewrite insert_insert_eq, append_assoc.
Qed.

Lemma slice_to_all s : Py.slice_to (String.length s) s = s.
Proof.
  induction s as [|c s IH]; [done|].
  change (String c (Py.slice_to (String.length s) s) = String c s). by rewrite IH.
Qed.

Lemma write_text_run w path text : forall offset st old,
  fs st !! path = Some old ->
  write_text w path offset text st =
    match first_fault (fun n => fs_fault w (OpWrite path n)) offset text with
    | Some (n, e) =>
        ({| report := report st;
            fs := <[path := old ++ Py.slice_to n text]> (fs st);
            net := net st; stdout := stdout st; draws := draws st;
            assigned := assigned st |}, Raise e)
    | None =>
        ({| report := report st; fs := <[path := old ++ text]> (fs st);
            net := net st; stdout := stdout st; draws := draws st;
            assigned := assigned st |}, Ok tt)
    end.
Proof.
  induction text as [|c rest IH]; intros offset st old Hold;
    cbn [write_text first_fault]; unfold bind at 1; unfold fault;
    destruct (fs_fault w (OpWrite path offset)) as [e|].
  - destruct st; simpl in *. unfold raise.
    change (Py.slice_to 0 "") with "". by rewrite append_nil_r, insert_id.
  - destruct st; simpl in *. unfold ret. by rewrite append_nil_r, insert_id.
  - destruct st; simpl in *. unfold raise.
    change (Py.slice_to 0 (String c rest)) with "". by rewrite append_nil_r, insert_id.
  - unfold ret. unfold bind at 1. unfold file_write, bind, get_fs, set_fs.
    rewrite Hold. cbn [default].
    rewrite (IH (S offset) _ (old ++ String c "")) by (cbn [fs]; apply lookup_insert_eq).
    cbn [report fs net stdout draws assigned].
    destruct (first_fault _ (S offset) rest) as [[n e]|];
      rewrite insert_insert_eq, append_assoc; reflexivity.
Qed.

Lemma print_text_run w text : forall offset st,
  print_text w offset text st =
    match first_fault (fun n => fs_fault w (OpPrint n)) offset text with
    | Some (n, e) =>
        ({| report := report st; fs := fs st; net := net st;
            stdout := stdout st ++ Py.slice_to n text; draws := draws st;
            assigned := assigned st |}, Raise e)
    | None =>
        ({| report := report st; fs := fs st; net := net st;
            stdout := stdout st ++ text; draws := draws st;
            assigned := assigned st |}, Ok tt)
    end.
Proof.
  induction text as [|c rest IH]; intros offset st;
    cbn [print_text first_fault]; unfold bind at 1; unfold fault;
    destruct (fs_fault w (OpPrint offset)) as [e|].
  - destruct st; simpl. unfold raise.
    change (Py.slice_to 0 "") with "". by rewrite append_nil_r.
  - destruct st; simpl. unfold ret. by rewrite append_nil_r.
  - destruct st; simpl. unfold raise.
    change (Py.slice_to 0 (String c rest)) with "". by rewrite append_nil_r.
  - unfold ret. unfold bind at 1. unfold emit. rewrite IH.
    cbn [report fs net stdout draws assigned].
    destruct (first_fault _ (S offset) rest) as [[n e]|];
      rewrite append_assoc; reflexivity.
Qed.

(** ** The three [try] blocks *)

Lemma gpt_body_run w key st r :
  report st = Some r ->
  gpt_body w key st =
    match gpt_outcome w key (draws st) with
    | Ok record =>
        (after_probe st (store gpt_key record r) (fs st) (gpt_calls w key (draws st))
           [(gpt_key, record)], Ok tt)
    | Raise e =>
        (after_probe st r (fs st) (gpt_calls w key (draws st)) [], Raise e)
    end.
Proof.
  intros Hr. destruct st as [rep files calls out n hist]. simpl in Hr. subst rep.
  unfold gpt_body, bind. rewrite random_choice_run by discriminate.
  unfold after_probe, gpt_outcome, gpt_calls, requests_get, chat_completions_create,
    bind, log_call, lift.
  cbn [report fs net stdout draws assigned].
  destruct (http_get w _) as [resp|e]; cbn; [|by rewrite app_nil_r].
  destruct (chat_create w _) as [c|e]; cbn; [|by rewrite <- app_assoc, app_nil_r].
  destruct (first_content_preview c) as [p|e]; cbn;
    by rewrite <- app_assoc, ?app_nil_r.
Qed.

Lemma ocr_body_run w key st r :
  report st = Some r ->
  ocr_body w key st =
    match ocr_outcome w key (draws st) with
    | Ok record =>
        (after_probe st (store ocr_key record r) (fs st) (ocr_calls w key (draws st))
           [(ocr_key, record)], Ok tt)
    | Raise e =>
        (after_probe st r (fs st) (ocr_calls w key (draws st)) [], Raise e)
    end.
Proof.
  intros Hr. destruct st as [rep files calls out n hist]. simpl in Hr. subst rep.
  unfold ocr_body, bind. rewrite random_choice_run by discriminate.
  unfold after_probe, ocr_outcome, ocr_calls, requests_get, chat_completions_create,
    bind, log_call, lift.
  cbn [report fs net stdout draws assigned].
  destruct (http_get w _) as [resp|e]; cbn; [|by rewrite app_nil_r].
  destruct (chat_create w _) as [c|e]; cbn; [|by rewrite <- app_assoc, app_nil_r].
  destruct (first_content_preview c) as [p|e]; cbn;
    by rewrite <- app_assoc, ?app_nil_r.
Qed.

(** The audio probe only touches the clip on disk. *)
Lemma whisper_body_run w key st r :
  report st = Some r ->
  exists files',
    (forall q, q <> audio_path w -> files' !! q = fs st !! q) /\
    whisper_body w key st =
      match whisper_outcome w key (draws st) with
      | Ok record =>
          (after_probe st (store whisper_key record r) files'
             (whisper_calls w key (draws st)) [(whisper_key, record)],
           faulted w (OpRemove (audio_path w)))
      | Raise e =>
          (after_probe st r files' (whisper_calls w key (draws st)) [], Raise e)
      end.
Proof.
  intros Hr. destruct st as [rep files calls out n hist]. simpl in Hr. subst rep.
  unfold whisper_body, bind. rewrite random_choice_run by discriminate.
  unfold after_probe, whisper_calls, whisper_outcome, whisper_download,
    faulted, requests_get_stream, requests_post, open_write, read_file, os_remove, fault,
    bind, log_call, lift, get_fs, set_fs, raise, ret.
  cbn [report fs net stdout draws assigned fst snd].
  destruct (http_get_stream w _) as [resp|e]; cbn.
  2:{ eexists; split; [done | by rewrite app_nil_r]. }
  destruct (fs_fault w (OpOpenWrite _)) as [e|]; cbn.
  { eexists; split; [done | by rewrite app_nil_r]. }
  erewrite write_chunks_run; cbn [fs]; [|apply lookup_insert_eq].
  change ("" ++ ?x) with x.
  assert (Hframe : forall (data : string) q, q <> audio_path w ->
            (<[audio_path w := data]> (<[audio_path w := ""]> files)) !! q = files !! q).
  { intros data q Hq. by rewrite !lookup_insert_ne. }
  destruct (s_error resp) as [e|]; cbn.
  { eexists; split; [apply Hframe | by rewrite app_nil_r]. }
  destruct (fs_fault w (OpOpenRead _)) as [e|]; cbn.
  { eexists; split; [apply Hframe | by rewrite app_nil_r]. }
  rewrite lookup_insert_eq; cbn.
  destruct (http_post w _) as [post|e]; cbn.
  2:{ eexists; split; [apply Hframe | by rewrite <- app_assoc, app_nil_r]. }
  destruct (p_json post) as [v|e]; cbn.
  2:{ eexists; split; [apply Hframe | by rewrite <- app_assoc, app_nil_r]. }
  destruct (fs_fault w (OpRemove _)) as [e|]; cbn.
  { eexists; split; [apply Hframe | by rewrite <- !app_assoc]. }
  rewrite lookup_insert_eq; cbn.
  eexists; split; [|by rewrite <- app_assoc].
  intros q Hq. rewrite lookup_delete_ne by done. by apply Hframe.
Qed.

Lemma gpt_probe_run w key st r :
  report st = Some r ->
  gpt_probe w key st =
    (after_probe st (store gpt_key (settle (gpt_outcome w key (draws st))) r) (fs st)
       (gpt_calls w key (draws st))
       [(gpt_key, settle (gpt_outcome w key (draws st)))], Ok tt).
Proof.
  intros Hr. unfold gpt_probe, try_except. rewrite (gpt_body_run _ _ _ _ Hr).
  destruct (gpt_outcome w key (draws st)) as [record|e]; [done|].
  unfold record_failure, set_result, after_probe; cbn. by rewrite app_nil_r.
Qed.

Lemma ocr_probe_run w key st r :
  report st = Some r ->
  ocr_probe w key st =
    (after_probe st (store ocr_key (settle (ocr_outcome w key (draws st))) r) (fs st)
       (ocr_calls w key (draws st))
       [(ocr_key, settle (ocr_outcome w key (draws st)))], Ok tt).
Proof.
  intros Hr. unfold ocr_probe, try_except. rewrite (ocr_body_run _ _ _ _ Hr).
  destruct (ocr_outcome w key (draws st)) as [record|e]; [done|].
  unfold record_failure, set_result, after_probe; cbn. by rewrite app_nil_r.
Qed.

Lemma whisper_probe_run w key st r :
  report st = Some r ->
  exists files',
    (forall q, q <> audio_path w -> files' !! q = fs st !! q) /\
    whisper_probe w key st =
      (after_probe st (store whisper_key (whisper_record w key (draws st)) r) files'
         (whisper_calls w key (draws st))
         (map (pair whisper_key) (whisper_history w key (draws st))), Ok tt).
Proof.
  intros Hr. destruct (whisper_body_run w key st r Hr) as (files' & Hframe & Hbody).
  exists files'. split; [exact Hframe|].
  unfold whisper_probe, try_except. rewrite Hbody.
  unfold whisper_record, whisper_history, faulted.
  destruct (whisper_outcome w key (draws st)) as [record|e].
  - destruct (fs_fault w (OpRemove _)) as [e|]; [|done].
    unfold record_failure, set_result, after_probe, store; cbn.
    by rewrite dict_set_twice, <- app_assoc.
  - unfold record_failure, set_result, after_probe; cbn. by rewrite app_nil_r.
Qed.

(** Whatever happens inside a [try] block, the block returns normally,
    and an exception of its body ends up as the failure record of its
    key. *)
Lemma probe_catches m w key st r :
  report st = Some r ->
  (model_probe m w key st).2 = Ok tt /\
  forall e, (model_body m w key st).2 = Raise e ->
            entry (model_key m) (model_probe m w key st).1 = Some (Failure (exn_str e)).
Proof.
  intros Hr. destruct m; simpl.
  - rewrite (gpt_probe_run _ _ _ _ Hr), (gpt_body_run _ _ _ _ Hr). split; [done|].
    intros e. destruct (gpt_outcome w key (draws st)); simpl; [done|].
    intros [= ->]. apply dict_get_set_eq.
  - destruct (whisper_probe_run w key st r Hr) as (f1 & _ & ->).
    destruct (whisper_body_run w key st r Hr) as (f2 & _ & ->). split; [done|].
    intros e. unfold entry, results_of, whisper_record, whisper_history, faulted. simpl.
    destruct (whisper_outcome w key (draws st)); simpl.
    + destruct (fs_fault w (OpRemove _)); simpl; [|done].
      intros [= ->]. apply dict_get_set_eq.
    + intros [= ->]. apply dict_get_set_eq.
  - rewrite (ocr_probe_run _ _ _ _ Hr), (ocr_body_run _ _ _ _ Hr). split; [done|].
    intros e. destruct (ocr_outcome w key (draws st)); simpl; [done|].
    intros [= ->]. apply dict_get_set_eq.
Qed.

(** ** The whole run *)

Lemma probes_run w key files :
  exists files',
    (forall q, q <> audio_path w -> files' !! q = files !! q) /\
    probes w key
      {| report := Some {| r_date := isoformat (today w);
                           r_run_time := strftime_HM (now w);
                           r_results := [] |};
         fs := files; net := []; stdout := ""; draws := 0; assigned := [] |}
    = (probed_state w key files', Ok tt).
Proof.
  unfold probes, bind.
  erewrite gpt_probe_run by reflexivity. cbn [after_probe report fs net stdout draws assigned].
  edestruct whisper_probe_run as (files' & Hframe & ->); [reflexivity|].
  erewrite ocr_probe_run by reflexivity.
  exists files'. split; [exact Hframe|].
  unfold after_probe, probed_state, probed_report, probed_calls, probed_assignments.
  cbn [report fs net stdout draws assigned r_date r_run_time r_results].
  rewrite <- !app_assoc. reflexivity.
Qed.

Lemma load_api_key_ok w key st :
  credential w key -> load_api_key w st = (st, Ok key).
Proof.
  intros [Hk Hne]. unfold load_api_key. rewrite Hk.
  destruct key; [done | reflexivity].
Qed.

Lemma load_api_key_missing w st :
  credential_missing w ->
  load_api_key w st = (st, Raise (Exn "RuntimeError" "SIMPLISMART_API_KEY not set")).
Proof. unfold load_api_key. by intros [-> | ->]. Qed.

Lemma credential_cases w : credential_missing w \/ exists key, credential w key.
Proof.
  unfold credential_missing, credential.
  destruct (env_key w) as [[|c k]|]; eauto.
Qed.

Lemma credential_exclusive w key : credential w key -> ~ credential_missing w.
Proof. intros [Hk Hne] [H|H]; congruence. Qed.

(** Without the credential nothing is done at all. *)
Lemma run_missing w files :
  credential_missing w ->
  run w files = (initial files, Raise (Exn "RuntimeError" "SIMPLISMART_API_KEY not set")).
Proof.
  intros H. unfold run, script, bind. by rewrite load_api_key_missing.
Qed.

(** What the last two statements make of the state the probes leave. *)
Lemma persist_run w key files' :
  bind (save_report w) (fun _ => print_report w) (probed_state w key files')
  = persisted w key files'.
Proof.
  unfold persisted, bind at 1, save_report, bind at 1, open_write, bind at 1, fault.
  destruct (fs_fault w (OpOpenWrite _)) as [e|]; [reflexivity|].
  unfold ret, bind, get_fs, set_fs, get_report.
  cbn [probed_state report fs net stdout draws assigned].
  rewrite (write_text_run w (output_path w) _ 0 _ "") by (cbn [fs]; apply lookup_insert_eq).
  fold (probed_text w key). unfold dump_fault.
  cbn [report fs net stdout draws assigned].
  destruct (first_fault _ 0 (probed_text w key)) as [[n e]|].
  { unfold half_saved_state. by rewrite insert_insert_eq. }
  unfold print_report, bind, get_report. cbn [report]. unfold print.
  rewrite print_text_run. fold (probed_text w key). unfold print_fault.
  cbn [report fs net stdout draws assigned].
  destruct (first_fault _ 0 (probed_text w key ++ line_feed)) as [[n e]|];
    unfold half_printed_state, saved_state; by rewrite insert_insert_eq.
Qed.

(** With the credential, the run is stopped by the creation of the
    output directory, or gets through the probes and on to the
    statements that persist the report. *)
Lemma run_spec w files key :
  credential w key ->
  exists files',
    (forall q, q <> audio_path w -> files' !! q = files !! q) /\
    run w files =
      match fs_fault w (OpMakedirs (OUTPUT_DIR w)) with
      | Some e => (initial files, Raise e)
      | None => persisted w key files'
      end.
Proof.
  intros Hc. destruct (probes_run w key files) as (files' & Hframe & Hrun).
  exists files'. split; [exact Hframe|].
  unfold run, script, bind at 1. rewrite (load_api_key_ok _ _ _ Hc).
  unfold bind at 1, os_makedirs, fault.
  destruct (fs_fault w (OpMakedirs _)) as [e|]; [reflexivity|].
  unfold ret, bind at 1, assign_report, initial.
  cbn [report fs net stdout draws assigned].
  unfold bind at 1. rewrite Hrun. apply persist_run.
Qed.

(** The four ways in which the persistence of the report ends. *)
Ltac persisted_cases w key :=
  unfold persisted;
  destruct (fs_fault w (OpOpenWrite (output_path w))) as [?|];
  [|destruct (dump_fault w key) as [[? ?]|];
    [|destruct (print_fault w key) as [[? ?]|]]].

(** Once the probes have run, the report is the one they left. *)
Lemma final_report w files key :
  reaches_report w key ->
  report (final w files) = Some (probed_report w key)
  /\ assigned (final w files) = probed_assignments w key
  /\ net (final w files) = probed_calls w key.
Proof.
  intros [Hc Hm]. destruct (run_spec w files key Hc) as (files' & _ & Hrun).
  unfold final. rewrite Hrun, Hm.
  by persisted_cases w key.
Qed.

Lemma final_complete w files key :
  credential w key -> completes w files ->
  reaches_report w key /\
  exists files',
    (forall q, q <> audio_path w -> files' !! q = files !! q) /\
    final w files = saved_state w key files'.
Proof.
  intros Hc Hdone. destruct (run_spec w files key Hc) as (files' & Hframe & Hrun).
  unfold completes, final in *. rewrite Hrun in *.
  destruct (fs_fault w (OpMakedirs _)) eqn:Hm; [done|].
  revert Hdone. persisted_cases w key; try done.
  intros _. split; [by split|]. by exists files'.
Qed.

Lemma completes_credential w files : completes w files -> exists key, credential w key.
Proof.
  intros Hdone. destruct (credential_cases w) as [Hmiss|Hkey]; [|done].
  unfold completes in Hdone. by rewrite (run_missing _ _ Hmiss) in Hdone.
Qed.

Lemma final_entry m w files key :
  reaches_report w key ->
  entry (model_key m) (final w files) = Some (model_record m w key).
Proof.
  intros Hr. destruct (final_report w files key Hr) as (Hrep & _).
  unfold entry, results_of. rewrite Hrep. by destruct m.
Qed.

(** The state in which each probe starts. *)
Lemma state_before_spec m w files key :
  fs_fault w (OpMakedirs (OUTPUT_DIR w)) = None ->
  exists r, report (state_before m w key files) = Some r
            /\ draws (state_before m w key files) = model_draw m.
Proof.
  intros Hm. unfold state_before, before, bind, os_makedirs, fault. rewrite Hm.
  unfold ret, assign_report, initial. cbn [report fs net stdout draws assigned].
  destruct m.
  - eexists; split; reflexivity.
  - erewrite gpt_probe_run by reflexivity. eexists; split; reflexivity.
  - erewrite gpt_probe_run by reflexivity.
    cbn [after_probe report fs net stdout draws assigned].
    edestruct whisper_probe_run as (files' & _ & ->); [reflexivity|].
    eexists; split; reflexivity.
Qed.

Lemma probe_entry m w key st r :
  report st = Some r -> draws st = model_draw m ->
  entry (model_key m) (model_probe m w key st).1 = Some (model_record m w key).
Proof.
  intros Hr Hd. destruct m; simpl in *.
  - rewrite (gpt_probe_run _ _ _ _ Hr), Hd. apply dict_get_set_eq.
  - destruct (whisper_probe_run w key st r Hr) as (f1 & _ & ->). rewrite Hd.
    apply dict_get_set_eq.
  - rewrite (ocr_probe_run _ _ _ _ Hr), Hd. apply dict_get_set_eq.
Qed.

(** ** What a record depends on *)

Lemma pick_ext w w' n seq : draw w n = draw w' n -> pick w n seq = pick w' n seq.
Proof. unfold pick. by intros ->. Qed.

(** The record of a model is a function of the answers its own probe
    gets. *)
Lemma model_record_ext m w w' key :
  same_answers m w w' -> model_record m w key = model_record m w' key.
Proof.
  intros [Hd Hm]. destruct m; simpl in *.
  - destruct Hm as [Hget Hchat]. unfold gpt_outcome.
    rewrite <- (pick_ext w w' 0 text_sources Hd).
    rewrite <- (Hget _ (pick_In w 0 text_sources ltac:(discriminate))).
    destruct (http_get w _) as [resp|e]; [simpl|done].
    by rewrite <- Hchat.
  - destruct Hm as (Hcwd & Hget & Hpost & Hfault).
    assert (Hpath : audio_path w' = audio_path w)
      by (unfold audio_path, BASE_DIR; by rewrite Hcwd).
    unfold whisper_record, whisper_history, whisper_outcome, whisper_download, faulted.
    rewrite <- (pick_ext w w' 1 audio_sources Hd), Hpath.
    rewrite <- (Hget _ (pick_In w 1 audio_sources ltac:(discriminate))).
    rewrite <- !Hfault by (simpl; auto).
    destruct (http_get_stream w _) as [resp|e]; [simpl|done].
    destruct (fs_fault w (OpOpenWrite _)); [done|simpl].
    destruct (s_error resp); [done|simpl].
    destruct (fs_fault w (OpOpenRead _)); [done|simpl].
    by rewrite <- Hpost.
  - destruct Hm as [Hget Hchat]. unfold ocr_outcome.
    rewrite <- (pick_ext w w' 2 image_sources Hd).
    rewrite <- (Hget _ (pick_In w 2 image_sources ltac:(discriminate))).
    destruct (http_get w _) as [resp|e]; [simpl|done].
    by rewrite <- Hchat.
Qed.

(** ** Previews *)

Lemma first_content_preview_short resp preview :
  first_content_preview resp = Ok preview -> (String.length preview <= 300)%nat.
Proof.
  unfold first_content_preview. destruct (choices resp) as [|[content|] ?]; try done.
  intros [= <-]. apply slice_to_length.
Qed.

Lemma gpt_short w key n : short_preview (gpt_key, settle (gpt_outcome w key n)).
Proof.
  unfold short_preview, gpt_outcome; simpl.
  destruct (http_get w _); simpl; [|done].
  destruct (chat_create w _); simpl; [|done].
  destruct (first_content_preview _) eqn:E; simpl; [|done].
  by eapply first_content_preview_short.
Qed.

Lemma ocr_short w key n : short_preview (ocr_key, settle (ocr_outcome w key n)).
Proof.
  unfold short_preview, ocr_outcome; simpl.
  destruct (http_get w _); simpl; [|done].
  destruct (chat_create w _); simpl; [|done].
  destruct (first_content_preview _) eqn:E; simpl; [|done].
  by eapply first_content_preview_short.
Qed.

Lemma whisper_short w key n :
  Forall short_preview (map (pair whisper_key) (whisper_history w key n)).
Proof.
  unfold whisper_history.
  destruct (whisper_outcome w key n) as [record|e] eqn:E;
    [|by repeat constructor].
  assert (short_preview (whisper_key, record)).
  { revert E. unfold whisper_outcome, short_preview.
    destruct (whisper_download w n); simpl; [|done].
    destruct (http_post w _) as [post|]; simpl; [|done].
    destruct (p_json post); simpl; [|done].
    intros [= <-]. apply slice_to_length. }
  destruct (fs_fault w _); by repeat constructor.
Qed.

Lemma probed_short w key : Forall short_preview (probed_assignments w key).
Proof.
  unfold probed_assignments. constructor; [apply gpt_short|].
  apply Forall_app. split; [apply whisper_short|].
  constructor; [apply ocr_short | constructor].
Qed.

(** The last record of the audio probe is one of those it stored. *)
Lemma whisper_record_In w key n :
  In (whisper_record w key n) (whisper_history w key n).
Proof.
  unfold whisper_record, whisper_history.
  destruct (whisper_outcome w key n); [|simpl; auto].
  destruct (fs_fault w _); simpl; auto.
Qed.

Lemma dict_get_In {V} k (v : V) d : dict_get k d = Some v -> In (k, v) d.
Proof.
  induction d as [|[k' v'] d IH]; [done|]. cbn [dict_get].
  destruct (String.eqb k' k) eqn:E.
  - intros [= ->]. apply String.eqb_eq in E as ->. by left.
  - intros H. right. by apply IH.
Qed.

(** Every entry of the report was assigned by a probe. *)
Lemma probed_entry_assigned w key k record :
  dict_get k (r_results (probed_report w key)) = Some record ->
  In (k, record) (probed_assignments w key).
Proof.
  intros H. apply dict_get_In in H.
  unfold probed_report, probed_assignments in *. cbn [r_results] in H.
  destruct H as [<-|[<-|[<-|[]]]].
  - by left.
  - right. apply in_or_app. left. apply in_map. apply whisper_record_In.
  - right. apply in_or_app. right. by left.
Qed.

(** ** Requests *)

Lemma probed_chat_requests w key req :
  In (NetChat req) (probed_calls w key) ->
  (exists doc, http_get w (pick w 0 text_sources) = Ok doc
               /\ req = gpt_request key (Py.slice_to 2000 (body doc)))
  \/ (exists img, http_get w (pick w 2 image_sources) = Ok img
                  /\ req = ocr_request key (Base64.b64encode (body img))).
Proof.
  unfold probed_calls, gpt_calls, whisper_calls, ocr_calls.
  rewrite !in_app_iff. intros [H|[H|H]].
  - destruct H as [H|H]; [done|].
    destruct (http_get w _) as [doc|]; [|done].
    destruct H as [[= <-]|[]]. left. by exists doc.
  - destruct H as [H|H]; [done|].
    destruct (whisper_download w 1); [|done]. by destruct H as [H|[]].
  - destruct H as [H|H]; [done|].
    destruct (http_get w _) as [img|]; [|done].
    destruct H as [[= <-]|[]]. right. by exists img.
Qed.

(** ** Paths *)

Lemma endswith_sep_app a b : b <> "" -> Py.endswith_sep (a ++ b) = Py.endswith_sep b.
Proof.
  intros Hb. induction a as [|c a IH]; [done|].
  rewrite append_cons, <- IH.
  destruct (a ++ b) eqn:E; [|done].
  destruct a as [|x a]; [by destruct (Hb E) | by rewrite append_cons in E].
Qed.

Lemma length_app_pos a b : b <> "" -> (String.length (a ++ b) =? 0)%nat = false.
Proof.
  intros Hb. destruct a; [|done]. by destruct b.
Qed.

Lemma OUTPUT_DIR_open w :
  ((String.length (OUTPUT_DIR w) =? 0)%nat || Py.endswith_sep (OUTPUT_DIR w)) = false.
Proof.
  unfold OUTPUT_DIR, Py.path_join. cbn [Py.startswith Ascii.eqb Bool.eqb].
  destruct ((String.length (BASE_DIR w) =? 0)%nat || Py.endswith_sep (BASE_DIR w)).
  - by rewrite length_app_pos, endswith_sep_app.
  - rewrite <- append_assoc. by rewrite length_app_pos, endswith_sep_app.
Qed.

Lemma output_path_eq w :
  output_path w = OUTPUT_DIR w ++ "/daily_model_health_" ++ isoformat (today w) ++ ".json".
Proof.
  unfold output_path, Py.path_join. rewrite OUTPUT_DIR_open.
  by rewrite append_cons.
Qed.

Lemma output_path_ext w w' :
  cwd w = cwd w' -> today w = today w' -> output_path w = output_path w'.
Proof. unfold output_path, OUTPUT_DIR, BASE_DIR. by intros -> ->. Qed.

(** ** How often a key is assigned *)

Lemma probed_assignment_counts w files key :
  reaches_report w key ->
  assignments_to gpt_key (final w files) = 1%nat
  /\ assignments_to ocr_key (final w files) = 1%nat
  /\ (assignments_to whisper_key (final w files) = 1%nat
      \/ assignments_to whisper_key (final w files) = 2%nat).
Proof.
  intros Hr. destruct (final_report w files key Hr) as (_ & Hass & _).
  unfold assignments_to. rewrite Hass. unfold probed_assignments, whisper_history.
  destruct (whisper_outcome w key 1); [destruct (fs_fault w _)|]; simpl; auto.
Qed.

(** Either the run stopped before the report existed, or the probes ran. *)
Lemma final_cases w files :
  final w files = initial files \/ exists key, reaches_report w key.
Proof.
  destruct (credential_cases w) as [Hmiss|[key Hc]].
  - left. unfold final. by rewrite (run_missing _ _ Hmiss).
  - destruct (fs_fault w (OpMakedirs (OUTPUT_DIR w))) as [e|] eqn:Hm.
    + left. destruct (run_spec w files key Hc) as (files' & _ & Hrun).
      unfold final. by rewrite Hrun, Hm.
    + right. by exists key.
Qed.

(** A run completes exactly when no statement outside the [try] blocks
    raises. *)
Lemma completes_iff w files key :
  credential w key ->
  completes w files <->
  fs_fault w (OpMakedirs (OUTPUT_DIR w)) = None
  /\ fs_fault w (OpOpenWrite (output_path w)) = None
  /\ dump_fault w key = None
  /\ print_fault w key = None.
Proof.
  intros Hc. destruct (run_spec w files key Hc) as (files' & _ & Hrun).
  unfold completes. rewrite Hrun.
  destruct (fs_fault w (OpMakedirs _)); [by split; [|intros [? _]]|].
  persisted_cases w key; split; try done; by intros (_ & ? & ? & ?).
Qed.

(** The probes, from the state the script starts them in, return
    normally whatever their calls answer. *)
Lemma probes_return w files key :
  reaches_report w key ->
  (probes w key (state_before GptOss120b w key files)).2 = Ok tt.
Proof.
  intros [_ Hm]. unfold state_before, before, bind, os_makedirs, fault. rewrite Hm.
  unfold ret, assign_report, initial. cbn [report fs net stdout draws assigned fst].
  destruct (probes_run w key files) as (files' & _ & Hrun). by rewrite Hrun.
Qed.

(** A run that has the credential and does not complete stopped either
    before the first probe or after the third. *)
Lemma abort_cases w files key :
  credential w key -> ~ completes w files ->
  final w files = initial files
  \/ (reaches_report w key /\ draws (final w files) = 3%nat).
Proof.
  intros Hc Hnot. destruct (run_spec w files key Hc) as (files' & _ & Hrun).
  unfold final. rewrite Hrun.
  destruct (fs_fault w (OpMakedirs _)) eqn:Hm; [by left|right].
  split; [by split|]. by persisted_cases w key.
Qed.

(** ** Dates and the text of the report *)

(** The number a string of decimal digits stands for. *)
Lemma zeros_value k s :
  option_map Nat.of_uint (NilEmpty.uint_of_string (Py.zeros k ++ s))
  = option_map Nat.of_uint (NilEmpty.uint_of_string s).
Proof.
  induction k as [|k IH]; [done|].
  cbn [Py.zeros]. rewrite append_cons. cbn [NilEmpty.uint_of_string].
  change (uint_of_char "0" ?o) with (option_map Decimal.D0 o).
  destruct (NilEmpty.uint_of_string (Py.zeros k ++ s)) as [d|] eqn:E;
    destruct (NilEmpty.uint_of_string s) as [d'|]; simpl in *; try done.
Qed.

Lemma zfill_value width n :
  option_map Nat.of_uint (NilEmpty.uint_of_string (Py.zfill width n)) = Some n.
Proof.
  unfold Py.zfill, Py.str_nat. rewrite zeros_value.
  destruct (Nat.to_uint n) as [| | | | | | | | | |] eqn:E;
    try (unfold NilZero.string_of_uint; rewrite NilEmpty.usu, <- E; simpl;
         by rewrite DecimalNat.Unsigned.of_to).
  simpl. f_equal. rewrite <- (DecimalNat.Unsigned.of_to n), E. reflexivity.
Qed.

Lemma zfill_inj width n m : Py.zfill width n = Py.zfill width m -> n = m.
Proof.
  intros H. pose proof (zfill_value width n) as Hn. rewrite H, zfill_value in Hn.
  by injection Hn.
Qed.

Lemma checked_upto (f : nat -> bool) k :
  forallb f (seq 0 (S k)) = true -> forall n, (n <= k)%nat -> f n = true.
Proof.
  intros H n Hn. apply (proj1 (forallb_forall f (seq 0 (S k))) H). apply in_seq. lia.
Qed.

Lemma zfill_2_length n : (n <= 99)%nat -> String.length (Py.zfill 2 n) = 2%nat.
Proof.
  intros Hn. apply Nat.eqb_eq.
  apply (checked_upto (fun n => String.length (Py.zfill 2 n) =? 2)%nat 99); [|done].
  vm_compute. reflexivity.
Qed.

Lemma zfill_4_length n : (n <= 9999)%nat -> String.length (Py.zfill 4 n) = 4%nat.
Proof.
  intros Hn. apply Nat.eqb_eq.
  apply (checked_upto (fun n => String.length (Py.zfill 4 n) =? 4)%nat 9999); [|done].
  vm_compute. reflexivity.
Qed.

Lemma length_append (a b : string) :
  String.length (a ++ b) = (String.length a + String.length b)%nat.
Proof. induction a as [|c a IH]; [done|]. rewrite append_cons. simpl. by rewrite IH. Qed.

Lemma append_inv_length (a b c d : string) :
  a ++ b = c ++ d -> String.length a = String.length c -> a = c /\ b = d.
Proof.
  revert c. induction a as [|x a IH]; intros [|y c] H Hlen; try done.
  rewrite !append_cons in H. injection H as -> H. injection Hlen as Hlen.
  destruct (IH c H Hlen) as [-> ->]. done.
Qed.

Lemma isoformat_length d : valid_date d -> String.length (isoformat d) = 10%nat.
Proof.
  intros (Hy & Hm & Hd). unfold isoformat. rewrite !length_append.
  rewrite zfill_4_length by apply Hy. rewrite !zfill_2_length by lia. reflexivity.
Qed.

Lemma isoformat_inj d1 d2 :
  valid_date d1 -> valid_date d2 -> isoformat d1 = isoformat d2 -> d1 = d2.
Proof.
  intros (Hy1 & Hm1 & Hd1) (Hy2 & Hm2 & Hd2) H. unfold isoformat in H.
  apply append_inv_length in H as [Hy H];
    [|by rewrite (zfill_4_length _ (proj2 Hy1)), (zfill_4_length _ (proj2 Hy2))].
  change ("-" ++ ?x) with (String "-" x) in H. injection H as H.
  apply append_inv_length in H as [Hm H]; [|by rewrite !zfill_2_length by lia].
  change ("-" ++ ?x) with (String "-" x) in H. injection H as Hd.
  apply zfill_inj in Hy, Hm, Hd. destruct d1, d2; simpl in *; congruence.
Qed.

Lemma output_path_inj w1 w2 :
  cwd w2 = cwd w1 -> valid_date (today w1) -> valid_date (today w2) ->
  output_path w2 = output_path w1 -> today w2 = today w1.
Proof.
  intros Hcwd H1 H2 H. rewrite !output_path_eq in H.
  unfold OUTPUT_DIR, BASE_DIR in H. rewrite Hcwd in H.
  apply String.app_inj in H. apply String.app_inj in H.
  apply append_inv_length in H as [H _]; [|by rewrite !isoformat_length].
  by apply isoformat_inj.
Qed.

Lemma report_json_layout date run_time text audio image :
  Json.dumps (report_json {| r_date := date; r_run_time := run_time;
                             r_results := [ (gpt_key, text); (whisper_key, audio);
                                            (ocr_key, image) ] |})
  = report_layout date run_time text audio image.
Proof.
  destruct text, audio, image;
    cbv -[String.append Json.escape]; rewrite !append_assoc; reflexivity.
Qed.

(** * The specification, claim by claim *)

(** C1.  In every run that gets past the credential check and reaches
    the step that writes the report, the [results] mapping of the report
    has exactly three entries, under the keys [gpt_oss_120b],
    [whisper_large_v2] and [deepseek_ocr], whatever the probes met. *)
Theorem report_has_three_entries w files key :
  reaches_report w key ->
  exists r, report (final w files) = Some r
            /\ dict_keys (r_results r) = [gpt_key; whisper_key; ocr_key]
            /\ List.length (r_results r) = 3%nat.
Proof.
  intros Hr. destruct (final_report w files key Hr) as (Hrep & _).
  exists (probed_report w key). by rewrite Hrep.
Qed.

Lemma report_has_three_entries_witness :
  exists r, report (final Sample.text_down ∅) = Some r
            /\ dict_keys (r_results r) = [gpt_key; whisper_key; ocr_key]
            /\ List.length (r_results r) = 3%nat.
Proof.
  apply (report_has_three_entries Sample.text_down ∅ "sk-test").
  split; [split; [reflexivity | discriminate] | reflexivity].
Defined.

(** C2.  For each of the three probes: the [try] block returns normally
    whatever its body does; an exception [e] raised by the body is
    stored as [{status: failure, error: str(e)}] under the key of that
    probe, in the state the block leaves and in the final report; and the
    entry of any other probe is the same in every world that gives that
    other probe the same answers. *)
Theorem probe_exception_is_isolated (m : Model) w files key :
  reaches_report w key ->
  (model_probe m w key (state_before m w key files)).2 = Ok tt
  /\ (forall e,
        (model_body m w key (state_before m w key files)).2 = Raise e ->
        entry (model_key m) (model_probe m w key (state_before m w key files)).1
          = Some (Failure (exn_str e))
        /\ entry (model_key m) (final w files) = Some (Failure (exn_str e)))
  /\ (forall m' w' files',
        m' <> m -> reaches_report w' key -> same_answers m' w w' ->
        entry (model_key m') (final w files) = entry (model_key m') (final w' files')).
Proof.
  intros Hr.
  destruct (state_before_spec m w files key (proj2 Hr)) as (r & Hrep & Hdraws).
  destruct (probe_catches m w key _ r Hrep) as [Hok Hcatch].
  split; [exact Hok|]. split.
  - intros e He. pose proof (Hcatch e He) as Hentry. split; [exact Hentry|].
    rewrite (final_entry m w files key Hr).
    by rewrite <- (probe_entry m w key _ r Hrep Hdraws).
  - intros m' w' files' _ Hr' Hsame.
    rewrite (final_entry m' w files key Hr), (final_entry m' w' files' key Hr').
    by rewrite (model_record_ext m' w w' key Hsame).
Qed.

Lemma probe_exception_is_isolated_witness :
  entry gpt_key (final Sample.text_down ∅)
    = Some (Failure "Max retries exceeded with url: /files/84/84-0.txt")
  /\ entry whisper_key (final Sample.text_down ∅) = entry whisper_key (final Sample.healthy ∅)
  /\ entry ocr_key (final Sample.text_down ∅) = entry ocr_key (final Sample.healthy ∅).
Proof.
  assert (Hr : reaches_report Sample.text_down "sk-test")
    by (split; [split; [reflexivity | discriminate] | reflexivity]).
  assert (Hr' : reaches_report Sample.healthy "sk-test")
    by (split; [split; [reflexivity | discriminate] | reflexivity]).
  destruct (probe_exception_is_isolated GptOss120b Sample.text_down ∅ "sk-test" Hr)
    as (_ & Hcatch & Hother).
  split; [|split].
  - apply (Hcatch (Exn "ConnectionError" "Max retries exceeded with url: /files/84/84-0.txt")).
    vm_compute. reflexivity.
  - apply (Hother WhisperLargeV2 Sample.healthy ∅); [discriminate | exact Hr' |].
    repeat split; intros; reflexivity.
  - apply (Hother DeepseekOcr Sample.healthy ∅); [discriminate | exact Hr' |].
    split; [reflexivity|]. split; [|reflexivity].
    intros url [<-|[<-|[]]]; reflexivity.
Defined.

(** C3, as the script has it.  Without the credential (variable unset
    or empty) the run raises at once: no draw, no network call, no
    assignment, no report, no file written, nothing printed.  No
    exception raised inside a probe stops a run: the three probes return
    normally whatever their calls answer.  With the credential, a run
    that is stopped is stopped by a statement outside the [try] blocks,
    either before the first probe starts, nothing having been done, or
    after the third probe has returned, the three entries being
    recorded. *)
Theorem credential_gate w files :
  (credential_missing w ->
     (run w files).2 = Raise (Exn "RuntimeError" "SIMPLISMART_API_KEY not set")
     /\ net (final w files) = []
     /\ draws (final w files) = 0%nat
     /\ assigned (final w files) = []
     /\ report (final w files) = None
     /\ fs (final w files) = files
     /\ stdout (final w files) = "")
  /\ (forall key, reaches_report w key ->
        (probes w key (state_before GptOss120b w key files)).2 = Ok tt)
  /\ (forall key, credential w key -> ~ completes w files ->
        (net (final w files) = []
         /\ draws (final w files) = 0%nat
         /\ assigned (final w files) = []
         /\ report (final w files) = None
         /\ fs (final w files) = files
         /\ stdout (final w files) = "")
        \/ (draws (final w files) = 3%nat
            /\ exists r, report (final w files) = Some r
                         /\ dict_keys (r_results r) = [gpt_key; whisper_key; ocr_key])).
Proof.
  split; [|split].
  - intros Hmiss. unfold final. by rewrite (run_missing _ _ Hmiss).
  - intros key Hr. by apply probes_return.
  - intros key Hc Hnot.
    destruct (abort_cases w files key Hc Hnot) as [->|[Hr Hdraws]]; [by left|right].
    split; [exact Hdraws|]. destruct (final_report w files key Hr) as (Hrep & _).
    exists (probed_report w key). by rewrite Hrep.
Qed.

Lemma credential_gate_witness :
  ((run Sample.no_key ∅).2 = Raise (Exn "RuntimeError" "SIMPLISMART_API_KEY not set")
   /\ net (final Sample.no_key ∅) = []
   /\ draws (final Sample.no_key ∅) = 0%nat
   /\ assigned (final Sample.no_key ∅) = []
   /\ report (final Sample.no_key ∅) = None
   /\ fs (final Sample.no_key ∅) = ∅
   /\ stdout (final Sample.no_key ∅) = "")
  /\ ((net (final Scenario.disk_full ∅) = []
       /\ draws (final Scenario.disk_full ∅) = 0%nat
       /\ assigned (final Scenario.disk_full ∅) = []
       /\ report (final Scenario.disk_full ∅) = None
       /\ fs (final Scenario.disk_full ∅) = ∅
       /\ stdout (final Scenario.disk_full ∅) = "")
      \/ (draws (final Scenario.disk_full ∅) = 3%nat
          /\ exists r, report (final Scenario.disk_full ∅) = Some r
                       /\ dict_keys (r_results r) = [gpt_key; whisper_key; ocr_key])).
Proof.
  split.
  - apply (proj1 (credential_gate Sample.no_key ∅)). left. reflexivity.
  - apply (proj2 (proj2 (credential_gate Scenario.disk_full ∅)) "sk-test").
    + split; [reflexivity | discriminate].
    + unfold completes. vm_compute. discriminate.
Defined.

(** C3, as stated, fails: with the credential set, a run is stopped by
    [os.makedirs] when the working directory cannot be written to. *)
Lemma abort_with_credential_present :
  credential Sample.read_only "sk-test"
  /\ ~ credential_missing Sample.read_only
  /\ (run Sample.read_only ∅).2 = Raise (Sample.permission_denied "/srv/batch/output").
Proof.
  split; [split; [reflexivity | discriminate]|]. split.
  - intros [H|H]; discriminate H.
  - vm_compute. reflexivity.
Qed.

(** C4, as the script has it.  The status code of the text source is not
    looked at.  Whenever the fetch returns a response, whatever its
    status (500 included), the first 2000 characters of its body are
    submitted, and the [gpt_oss_120b] entry is decided by the completion
    call alone: success with the chosen URL and the first 300 characters
    of the first choice, failure with [str(e)] when the call raises or
    the answer has no usable first choice.  The other two entries are
    there in every case. *)
Theorem text_status_not_inspected w files key doc :
  reaches_report w key ->
  http_get w (pick w 0 text_sources) = Ok doc ->
  entry gpt_key (final w files)
    = Some match chat_create w (gpt_request key (Py.slice_to 2000 (body doc))) with
           | Raise e => Failure (exn_str e)
           | Ok resp =>
               match first_content_preview resp with
               | Ok preview => Success (pick w 0 text_sources) preview
               | Raise e => Failure (exn_str e)
               end
           end
  /\ is_Some (entry whisper_key (final w files))
  /\ is_Some (entry ocr_key (final w files)).
Proof.
  intros Hr Hdoc. split; [|split].
  - change gpt_key with (model_key GptOss120b).
    rewrite (final_entry GptOss120b w files key Hr).
    cbn [model_record]. unfold gpt_outcome. rewrite Hdoc. simpl.
    destruct (chat_create w _) as [resp|e]; [simpl|done].
    by destruct (first_content_preview resp).
  - change whisper_key with (model_key WhisperLargeV2).
    by rewrite (final_entry WhisperLargeV2 w files key Hr).
  - change ocr_key with (model_key DeepseekOcr).
    by rewrite (final_entry DeepseekOcr w files key Hr).
Qed.

Lemma text_status_not_inspected_witness :
  entry gpt_key (final Sample.text_500 ∅)
    = Some (Success "https://www.gutenberg.org/files/84/84-0.txt" "A short summary.")
  /\ is_Some (entry whisper_key (final Sample.text_500 ∅))
  /\ is_Some (entry ocr_key (final Sample.text_500 ∅)).
Proof.
  apply (text_status_not_inspected Sample.text_500 ∅ "sk-test"
           (mkHttpResponse 500 "<h1>500 Internal Server Error</h1>")).
  - split; [split; [reflexivity | discriminate] | reflexivity].
  - reflexivity.
Defined.

(** C4, as stated, fails: the text source answers 500 and the entry is a
    success. *)
Lemma text_source_500_recorded_success :
  http_get Sample.text_500 (pick Sample.text_500 0 text_sources)
    = Ok (mkHttpResponse 500 "<h1>500 Internal Server Error</h1>")
  /\ completes Sample.text_500 ∅
  /\ entry gpt_key (final Sample.text_500 ∅)
     = Some (Success "https://www.gutenberg.org/files/84/84-0.txt" "A short summary.").
Proof. vm_compute. repeat split. Qed.

(** C5.  Every record with an [output_preview] that a run assigns, and so
    every such entry of its report, has a preview of at most 300
    characters. *)
Theorem output_preview_at_most_300 w files k input preview :
  In (k, Success input preview) (assigned (final w files))
  \/ entry k (final w files) = Some (Success input preview) ->
  (String.length preview <= 300)%nat.
Proof.
  intros H.
  assert (Hin : In (k, Success input preview) (assigned (final w files))).
  { destruct H as [H|H]; [exact H|].
    destruct (final_cases w files) as [Hinit|[key Hr]].
    - by rewrite Hinit in H.
    - destruct (final_report w files key Hr) as (Hrep & Hass & _).
      unfold entry, results_of in H. rewrite Hrep in H. rewrite Hass.
      by apply probed_entry_assigned. }
  destruct (final_cases w files) as [Hinit|[key Hr]].
  - by rewrite Hinit in Hin.
  - destruct (final_report w files key Hr) as (_ & Hass & _). rewrite Hass in Hin.
    pose proof (probed_short w key) as Hshort.
    apply (proj1 (List.Forall_forall _ _) Hshort _ Hin).
Qed.

Lemma output_preview_at_most_300_witness :
  entry whisper_key (final Sample.healthy ∅)
    = Some (Success "https://upload.wikimedia.org/wikipedia/commons/3/3c/En-us-weather.ogg"
              "{'text': 'Hello'}")
  /\ (String.length "{'text': 'Hello'}" <= 300)%nat.
Proof.
  assert (H : entry whisper_key (final Sample.healthy ∅)
              = Some (Success
                        "https://upload.wikimedia.org/wikipedia/commons/3/3c/En-us-weather.ogg"
                        "{'text': 'Hello'}"))
    by (vm_compute; reflexivity).
  split; [exact H|].
  apply (output_preview_at_most_300 Sample.healthy ∅ whisper_key
           "https://upload.wikimedia.org/wikipedia/commons/3/3c/En-us-weather.ogg").
  right. exact H.
Defined.

(** C6.  Every completion request a run sends to the text model carries
    the line [Summarize this text:] followed by the first 2000 characters
    of the fetched document, and nothing else of it: the excerpt is a
    prefix of the document, never longer than 2000 characters, and all of
    the document when that is shorter. *)
Theorem text_request_carries_truncated_document w files req :
  In (NetChat req) (net (final w files)) ->
  c_model req = "openai/gpt-oss-120b" ->
  exists doc text,
    http_get w (pick w 0 text_sources) = Ok doc
    /\ text = Py.slice_to 2000 (body doc)
    /\ c_content req = CText ("Summarize this text:" ++ line_feed ++ text)
    /\ (String.length text <= 2000)%nat
    /\ exists rest, body doc = text ++ rest
                    /\ (rest <> "" -> String.length text = 2000%nat).
Proof.
  intros Hin Hmodel.
  destruct (final_cases w files) as [Hinit|[key Hr]]; [by rewrite Hinit in Hin|].
  destruct (final_report w files key Hr) as (_ & _ & Hnet). rewrite Hnet in Hin.
  destruct (probed_chat_requests w key req Hin) as [(doc & Hdoc & ->)|(img & _ & ->)];
    [|discriminate Hmodel].
  exists doc, (Py.slice_to 2000 (body doc)).
  repeat split; [exact Hdoc | apply slice_to_length | apply slice_to_prefix].
Qed.

Lemma text_request_carries_truncated_document_witness :
  exists doc text,
    http_get Sample.healthy (pick Sample.healthy 0 text_sources) = Ok doc
    /\ text = Py.slice_to 2000 (body doc)
    /\ c_content (gpt_request "sk-test" "Alice was beginning to get very tired")
       = CText ("Summarize this text:" ++ line_feed ++ text)
    /\ (String.length text <= 2000)%nat
    /\ exists rest, body doc = text ++ rest
                    /\ (rest <> "" -> String.length text = 2000%nat).
Proof.
  apply (text_request_carries_truncated_document Sample.healthy ∅).
  - vm_compute. right. left. reflexivity.
  - reflexivity.
Defined.

(** C7.  The report file is [<output-dir>/daily_model_health_<ISO-date>.json],
    the date being that of the run, written as four digits for the year,
    two for the month and two for the day, with hyphens between; a run
    that completes leaves there the serialised report, laid out line by
    line with its three entries; of two completed runs of the same day in
    the same directory the second writes to the same path, which then
    holds the second report alone, and adds no other file (the temporary
    clip apart); runs of different days write to different paths. *)
Theorem report_file_per_day w1 files :
  output_path w1
    = OUTPUT_DIR w1 ++ "/daily_model_health_" ++ isoformat (today w1) ++ ".json"
  /\ (valid_date (today w1) ->
      exists yyyy mm dd,
        isoformat (today w1) = yyyy ++ "-" ++ mm ++ "-" ++ dd
        /\ String.length yyyy = 4%nat /\ String.length mm = 2%nat
        /\ String.length dd = 2%nat
        /\ decimal yyyy = Some (year (today w1))
        /\ decimal mm = Some (month (today w1))
        /\ decimal dd = Some (day (today w1)))
  /\ (completes w1 files ->
      exists r text audio image,
        report (final w1 files) = Some r
        /\ r_date r = isoformat (today w1)
        /\ r_results r = [(gpt_key, text); (whisper_key, audio); (ocr_key, image)]
        /\ fs (final w1 files) !! output_path w1 = Some (Json.dumps (report_json r))
        /\ Json.dumps (report_json r)
           = report_layout (r_date r) (r_run_time r) text audio image)
  /\ (forall w2,
        cwd w2 = cwd w1 -> today w2 = today w1 ->
        completes w1 files -> completes w2 (fs (final w1 files)) ->
        output_path w2 = output_path w1
        /\ (exists r2 text audio image,
              report (final w2 (fs (final w1 files))) = Some r2
              /\ r_results r2 = [(gpt_key, text); (whisper_key, audio); (ocr_key, image)]
              /\ fs (final w2 (fs (final w1 files))) !! output_path w1
                 = Some (Json.dumps (report_json r2))
              /\ Json.dumps (report_json r2)
                 = report_layout (r_date r2) (r_run_time r2) text audio image)
        /\ (forall q, q <> audio_path w1 ->
              is_Some (fs (final w2 (fs (final w1 files))) !! q)
              <-> is_Some (fs (final w1 files) !! q)))
  /\ (forall w2,
        cwd w2 = cwd w1 -> valid_date (today w1) -> valid_date (today w2) ->
        today w2 <> today w1 -> output_path w2 <> output_path w1).
Proof.
  assert (Hsaved : forall w fs0, completes w fs0 ->
            exists key files',
              (forall q, q <> audio_path w -> files' !! q = fs0 !! q)
              /\ final w fs0 = saved_state w key files').
  { intros w fs0 Hdone. destruct (completes_credential _ _ Hdone) as [key Hc].
    destruct (final_complete w fs0 key Hc Hdone) as (_ & files' & Hframe & Hfin).
    by exists key, files'. }
  split; [apply output_path_eq|]. split; [|split; [|split]].
  - intros (Hy & Hm & Hd).
    exists (Py.zfill 4 (year (today w1))), (Py.zfill 2 (month (today w1))),
      (Py.zfill 2 (day (today w1))).
    split; [reflexivity|].
    rewrite (zfill_4_length _ (proj2 Hy)), !zfill_2_length by lia.
    unfold decimal. by rewrite !zfill_value.
  - intros Hdone. destruct (Hsaved _ _ Hdone) as (key & files' & _ & ->).
    do 4 eexists. split; [reflexivity|]. split; [reflexivity|].
    split; [reflexivity|]. split; [apply lookup_insert_eq|].
    apply report_json_layout.
  - intros w2 Hcwd Hday Hdone1 Hdone2.
    assert (Hpath : output_path w2 = output_path w1) by by apply output_path_ext.
    assert (Hclip : audio_path w2 = audio_path w1)
      by (unfold audio_path, BASE_DIR; by rewrite Hcwd).
    destruct (Hsaved _ _ Hdone2) as (key2 & files2 & Hframe2 & ->).
    destruct (Hsaved _ _ Hdone1) as (key1 & files1 & Hframe1 & Hfin1).
    rewrite Hfin1 in *. cbn [saved_state fs report] in *.
    split; [exact Hpath|]. split.
    + do 4 eexists. split; [reflexivity|]. split; [reflexivity|].
      split; [rewrite Hpath; apply lookup_insert_eq|]. apply report_json_layout.
    + intros q Hq. rewrite Hpath.
      destruct (decide (q = output_path w1)) as [->|Hne].
      * rewrite !lookup_insert_eq. split; eauto.
      * rewrite lookup_insert_ne by done.
        rewrite Hframe2 by (by rewrite Hclip).
        by rewrite lookup_insert_ne by done.
  - intros w2 Hcwd H1 H2 Hday Hpath. apply Hday. by apply output_path_inj.
Qed.

Lemma report_file_per_day_witness :
  output_path Sample.healthy = "/srv/batch/output/daily_model_health_2024-03-09.json"
  /\ output_path Sample.healthy_later = output_path Sample.healthy
  /\ fs (final Sample.healthy ∅) !! "/srv/batch/output/daily_model_health_2024-03-09.json"
     = Some (Py.join line_feed
         [ "{";
           "  " ++ quoted "date" ++ ": " ++ quoted "2024-03-09" ++ ",";
           "  " ++ quoted "run_time" ++ ": " ++ quoted "07:05" ++ ",";
           "  " ++ quoted "results" ++ ": {";
           "    " ++ quoted "gpt_oss_120b" ++ ": {";
           "      " ++ quoted "status" ++ ": " ++ quoted "success" ++ ",";
           "      " ++ quoted "input" ++ ": "
             ++ quoted "https://www.gutenberg.org/files/84/84-0.txt" ++ ",";
           "      " ++ quoted "output_preview" ++ ": " ++ quoted "A short summary.";
           "    },";
           "    " ++ quoted "whisper_large_v2" ++ ": {";
           "      " ++ quoted "status" ++ ": " ++ quoted "success" ++ ",";
           "      " ++ quoted "input" ++ ": "
             ++ quoted "https://upload.wikimedia.org/wikipedia/commons/3/3c/En-us-weather.ogg"
             ++ ",";
           "      " ++ quoted "output_preview" ++ ": " ++ quoted "{'text': 'Hello'}";
           "    },";
           "    " ++ quoted "deepseek_ocr" ++ ": {";
           "      " ++ quoted "status" ++ ": " ++ quoted "success" ++ ",";
           "      " ++ quoted "input" ++ ": "
             ++ quoted "https://upload.wikimedia.org/wikipedia/commons/4/4b/ReceiptSwiss.jpg"
             ++ ",";
           "      " ++ quoted "output_preview" ++ ": " ++ quoted "A short summary.";
           "    }";
           "  }";
           "}" ])
  /\ fs (final Sample.healthy_later (fs (final Sample.healthy ∅)))
       !! "/srv/batch/output/daily_model_health_2024-03-09.json"
     = Some (Py.join line_feed
         [ "{";
           "  " ++ quoted "date" ++ ": " ++ quoted "2024-03-09" ++ ",";
           "  " ++ quoted "run_time" ++ ": " ++ quoted "18:40" ++ ",";
           "  " ++ quoted "results" ++ ": {";
           "    " ++ quoted "gpt_oss_120b" ++ ": {";
           "      " ++ quoted "status" ++ ": " ++ quoted "success" ++ ",";
           "      " ++ quoted "input" ++ ": "
             ++ quoted "https://www.gutenberg.org/files/1342/1342-0.txt" ++ ",";
           "      " ++ quoted "output_preview" ++ ": " ++ quoted "Another summary.";
           "    },";
           "    " ++ quoted "whisper_large_v2" ++ ": {";
           "      " ++ quoted "status" ++ ": " ++ quoted "success" ++ ",";
           "      " ++ quoted "input" ++ ": "
             ++ quoted "https://upload.wikimedia.org/wikipedia/commons/4/45/En-us-hello.ogg"
             ++ ",";
           "      " ++ quoted "output_preview" ++ ": " ++ quoted "{'text': 'Hello'}";
           "    },";
           "    " ++ quoted "deepseek_ocr" ++ ": {";
           "      " ++ quoted "status" ++ ": " ++ quoted "success" ++ ",";
           "      " ++ quoted "input" ++ ": "
             ++ quoted "https://upload.wikimedia.org/wikipedia/commons/3/3f/Fax2.png" ++ ",";
           "      " ++ quoted "output_preview" ++ ": " ++ quoted "Another summary.";
           "    }";
           "  }";
           "}" ])
  /\ (forall q, q <> audio_path Sample.healthy ->
        is_Some (fs (final Sample.healthy_later (fs (final Sample.healthy ∅))) !! q)
        <-> is_Some (fs (final Sample.healthy ∅) !! q)).
Proof.
  destruct (report_file_per_day Sample.healthy ∅) as (_ & _ & _ & Hsame & _).
  destruct (Hsame Sample.healthy_later) as (Hpath & _ & Hdom).
  - reflexivity.
  - reflexivity.
  - vm_compute. reflexivity.
  - vm_compute. reflexivity.
  - split; [vm_compute; reflexivity|]. split; [exact Hpath|].
    split; [vm_compute; reflexivity|]. split; [vm_compute; reflexivity|].
    exact Hdom.
Defined.

(** C8, as the script has it.  In a run that completes, the file holds
    [json.dumps(report, indent=2)] and the standard output holds the same
    text followed by the line feed that [print] appends. *)
Theorem stdout_is_file_and_newline w files :
  completes w files ->
  exists r, report (final w files) = Some r
            /\ fs (final w files) !! output_path w = Some (Json.dumps (report_json r))
            /\ stdout (final w files) = Json.dumps (report_json r) ++ line_feed.
Proof.
  intros Hdone. destruct (completes_credential _ _ Hdone) as [key Hc].
  destruct (final_complete w files key Hc Hdone) as (_ & files' & _ & ->).
  eexists; split; [reflexivity|]. split; [apply lookup_insert_eq | reflexivity].
Qed.

Lemma stdout_is_file_and_newline_witness :
  exists r, report (final Sample.healthy ∅) = Some r
            /\ fs (final Sample.healthy ∅) !! output_path Sample.healthy
               = Some (Json.dumps (report_json r))
            /\ stdout (final Sample.healthy ∅) = Json.dumps (report_json r) ++ line_feed.
Proof.
  apply (stdout_is_file_and_newline Sample.healthy ∅). vm_compute. reflexivity.
Defined.

(** C8, as stated, fails: what is printed is one character longer than
    what is written. *)
Lemma stdout_differs_from_file :
  completes Sample.healthy ∅
  /\ fs (final Sample.healthy ∅) !! output_path Sample.healthy
     <> Some (stdout (final Sample.healthy ∅)).
Proof.
  split; [vm_compute; reflexivity|].
  intros H. apply (f_equal (fun o => String.length <$> o)) in H.
  vm_compute in H. by injection H.
Qed.

(** C9 at the input where the script departs from it: the clip is
    written, read back and transcribed, the success record is stored,
    and [os.remove] then raises inside the same [try]; the [except]
    branch stores a failure record over the success record.  The key
    [whisper_large_v2] is assigned twice in that run. *)
Theorem whisper_success_record_replaced :
  completes Sample.stuck_clip ∅
  /\ assigned (final Sample.stuck_clip ∅)
     = [ (gpt_key, Success "https://www.gutenberg.org/files/84/84-0.txt" "A short summary.");
         (whisper_key,
          Success "https://upload.wikimedia.org/wikipedia/commons/3/3c/En-us-weather.ogg"
            "{'text': 'Hello'}");
         (whisper_key,
          Failure "[Errno 13] Permission denied: '/srv/batch/sample_audio.ogg'");
         (ocr_key,
          Success "https://upload.wikimedia.org/wikipedia/commons/4/4b/ReceiptSwiss.jpg"
            "A short summary.") ]
  /\ entry whisper_key (final Sample.stuck_clip ∅)
     = Some (Failure "[Errno 13] Permission denied: '/srv/batch/sample_audio.ogg'")
  /\ assignments_to whisper_key (final Sample.stuck_clip ∅) = 2%nat.
Proof. vm_compute. repeat split. Qed.

(** C10.  Once the clip is on disk and the POST has returned a response,
    the audio probe looks at nothing but [.json()]: if the body parses,
    the success record with the first 300 characters of [str(resp)] is
    stored under [whisper_large_v2], whatever the status code, and it is
    the entry of the report when the removal of the clip returns; if the
    body does not parse, the entry is the failure record of that
    exception. *)
Theorem whisper_success_ignores_status w files key stream post :
  reaches_report w key ->
  http_get_stream w (pick w 1 audio_sources) = Ok stream ->
  s_error stream = None ->
  fs_fault w (OpOpenWrite (audio_path w)) = None ->
  fs_fault w (OpOpenRead (audio_path w)) = None ->
  http_post w (whisper_request key (Base64.b64encode (String.concat "" (s_chunks stream))))
    = Ok post ->
  match p_json post with
  | Ok resp =>
      In (whisper_key, Success (pick w 1 audio_sources) (Py.slice_to 300 (Py.str resp)))
         (assigned (final w files))
      /\ (fs_fault w (OpRemove (audio_path w)) = None ->
          entry whisper_key (final w files)
            = Some (Success (pick w 1 audio_sources) (Py.slice_to 300 (Py.str resp))))
  | Raise e => entry whisper_key (final w files) = Some (Failure (exn_str e))
  end.
Proof.
  intros Hr Hget Hend Hwrite Hread Hpost.
  destruct (final_report w files key Hr) as (_ & Hass & _).
  pose proof (final_entry WhisperLargeV2 w files key Hr) as Hentry.
  cbn [model_key model_record] in Hentry. rewrite Hentry, Hass.
  unfold probed_assignments, whisper_record, whisper_history, whisper_outcome,
    whisper_download, faulted.
  rewrite Hget. cbn [and_then]. rewrite Hwrite, Hend, Hread. cbn [and_then].
  rewrite Hpost. cbn [and_then].
  destruct (p_json post) as [resp|e]; cbn [and_then]; [|done].
  split.
  - right. apply in_or_app. left.
    destruct (fs_fault w (OpRemove _)); simpl; auto.
  - by intros ->.
Qed.

Lemma whisper_success_ignores_status_witness :
  p_status_code (mkPostResponse 500 (Ok (Py.ODict [("detail", Py.OStr "Internal Server Error")])))
    = 500%Z
  /\ In (whisper_key,
         Success "https://upload.wikimedia.org/wikipedia/commons/3/3c/En-us-weather.ogg"
           "{'detail': 'Internal Server Error'}")
        (assigned (final Sample.whisper_500 ∅))
  /\ entry whisper_key (final Sample.whisper_500 ∅)
     = Some (Success "https://upload.wikimedia.org/wikipedia/commons/3/3c/En-us-weather.ogg"
               "{'detail': 'Internal Server Error'}").
Proof.
  split; [reflexivity|].
  destruct (whisper_success_ignores_status Sample.whisper_500 ∅ "sk-test"
              (mkStreamResponse 200 ["Ogg"; "S"] None)
              (mkPostResponse 500
                 (Ok (Py.ODict [("detail", Py.OStr "Internal Server Error")]))))
    as [Hin Hentry].
  - split; [split; [reflexivity | discriminate] | reflexivity].
  - reflexivity.
  - reflexivity.
  - reflexivity.
  - reflexivity.
  - reflexivity.
  - split; [exact Hin | apply Hentry; reflexivity].
Defined.

(** * Further properties of the script *)

(** ** The disk *)

Lemma whisper_probe_files w key st r :
  report st = Some r ->
  fs (whisper_probe w key st).1 = clip_after w key (draws st) (fs st).
Proof.
  intros Hr. destruct st as [rep files calls out n hist]. simpl in Hr. subst rep.
  unfold whisper_probe, try_except, whisper_body, bind.
  rewrite random_choice_run by discriminate.
  unfold clip_after, whisper_outcome, whisper_download,
    faulted, requests_get_stream, requests_post, open_write, read_file, os_remove, fault,
    bind, log_call, lift, get_fs, set_fs, raise, ret, record_failure, set_result.
  cbn [report fs net stdout draws assigned fst snd].
  destruct (http_get_stream w _) as [resp|e]; cbn; [|done].
  destruct (fs_fault w (OpOpenWrite _)) as [e|]; cbn; [done|].
  erewrite write_chunks_run; cbn [fs]; [|apply lookup_insert_eq].
  change ("" ++ ?x) with x. rewrite insert_insert_eq.
  destruct (s_error resp) as [e|]; cbn; [done|].
  destruct (fs_fault w (OpOpenRead _)) as [e|]; cbn; [done|].
  rewrite lookup_insert_eq; cbn.
  destruct (http_post w _) as [post|e]; cbn; [|done].
  destruct (p_json post) as [v|e]; cbn; [|done].
  destruct (fs_fault w (OpRemove _)) as [e|]; cbn; [done|].
  rewrite lookup_insert_eq; cbn. by rewrite delete_insert_eq.
Qed.

Lemma probes_files w key files :
  probes w key
    {| report := Some {| r_date := isoformat (today w);
                         r_run_time := strftime_HM (now w);
                         r_results := [] |};
       fs := files; net := []; stdout := ""; draws := 0; assigned := [] |}
  = (probed_state w key (clip_after w key 1 files), Ok tt).
Proof.
  destruct (probes_run w key files) as (files' & _ & Hrun). rewrite Hrun.
  enough (Hf : files' = clip_after w key 1 files) by (by rewrite Hf).
  apply (f_equal (fun x => fs x.1)) in Hrun. cbn [probed_state fs fst] in Hrun.
  rewrite <- Hrun. unfold probes, bind.
  erewrite gpt_probe_run by reflexivity.
  set (st1 := after_probe _ _ _ _ _).
  destruct (whisper_probe_run w key st1 _ eq_refl) as (f' & _ & Heq).
  pose proof (whisper_probe_files w key st1 _ eq_refl) as Hfiles.
  rewrite Heq in *. erewrite ocr_probe_run by reflexivity. exact Hfiles.
Qed.

(** The run, with the disk it leaves spelled out. *)
Lemma run_files w files key :
  credential w key ->
  run w files =
    match fs_fault w (OpMakedirs (OUTPUT_DIR w)) with
    | Some e => (initial files, Raise e)
    | None => persisted w key (clip_after w key 1 files)
    end.
Proof.
  intros Hc. unfold run, script, bind at 1. rewrite (load_api_key_ok _ _ _ Hc).
  unfold bind at 1, os_makedirs, fault.
  destruct (fs_fault w (OpMakedirs _)) as [e|]; [reflexivity|].
  unfold ret, bind at 1, assign_report, initial.
  cbn [report fs net stdout draws assigned].
  unfold bind at 1. rewrite probes_files. apply persist_run.
Qed.

(** ** Paths *)

Lemma path_join_relative a b :
  Py.startswith "/" b = false ->
  exists sep, (sep = "" \/ sep = "/") /\ Py.path_join a b = a ++ sep ++ b.
Proof.
  intros Hb. unfold Py.path_join. rewrite Hb.
  destruct (_ || _); [exists "" | exists "/"]; auto.
Qed.

(** The clip and the report are never the same file. *)
Lemma audio_path_not_output_path w : audio_path w <> output_path w.
Proof.
  rewrite output_path_eq. unfold audio_path, OUTPUT_DIR, Py.path_join.
  cbn [Py.startswith Ascii.eqb Bool.eqb].
  destruct ((String.length (BASE_DIR w) =? 0)%nat || Py.endswith_sep (BASE_DIR w)).
  - rewrite append_assoc. intros H. apply String.app_inj in H. discriminate H.
  - rewrite !append_assoc. intros H. apply String.app_inj in H. discriminate H.
Qed.

Lemma clip_after_frame w key n files q :
  q <> audio_path w -> clip_after w key n files !! q = files !! q.
Proof.
  intros Hq. unfold clip_after.
  destruct (http_get_stream w _); [|done].
  destruct (fs_fault w (OpOpenWrite _)); [done|].
  destruct (whisper_outcome w key n); [destruct (fs_fault w (OpRemove _))|];
    by rewrite ?lookup_insert_ne, ?lookup_delete_ne.
Qed.

Lemma whisper_outcome_success w key n record :
  whisper_outcome w key n = Ok record ->
  record = Success (pick w n audio_sources) (output_preview_of record).
Proof.
  unfold whisper_outcome.
  destruct (whisper_download w n); [simpl|done].
  destruct (http_post w _) as [post|]; [simpl|done].
  destruct (p_json post); [simpl|done]. by intros [= <-].
Qed.

Lemma whisper_download_ok w n data :
  whisper_download w n = Ok data ->
  exists stream,
    http_get_stream w (pick w n audio_sources) = Ok stream
    /\ s_error stream = None
    /\ fs_fault w (OpOpenWrite (audio_path w)) = None
    /\ fs_fault w (OpOpenRead (audio_path w)) = None
    /\ data = String.concat "" (s_chunks stream).
Proof.
  unfold whisper_download, faulted.
  destruct (http_get_stream w _) as [stream|]; [simpl|done].
  destruct (fs_fault w (OpOpenWrite _)); [done|simpl].
  destruct (s_error stream) eqn:Hend; [done|simpl].
  destruct (fs_fault w (OpOpenRead _)); [done|simpl].
  intros [= <-]. by exists stream.
Qed.

(** ** What a run leaves on disk and on the wire *)

(** X1.  When [os.makedirs] raises, the run stops there with that
    exception: no draw, no network call, no assignment, no report, the
    disk and the standard output as they were. *)
Theorem makedirs_failure_stops_before_probes w files key e :
  credential w key ->
  fs_fault w (OpMakedirs (OUTPUT_DIR w)) = Some e ->
  run w files = (initial files, Raise e).
Proof.
  intros Hc Hm. by rewrite (run_files w files key Hc), Hm.
Qed.

Lemma makedirs_failure_stops_before_probes_witness :
  run Sample.read_only ∅
  = (initial ∅, Raise (Sample.permission_denied "/srv/batch/output")).
Proof.
  apply (makedirs_failure_stops_before_probes Sample.read_only ∅ "sk-test").
  - split; [reflexivity | discriminate].
  - reflexivity.
Defined.

(** X2.  The report is printed only once its file is complete: whenever
    the standard output of a run is not empty, the report file holds the
    whole serialised report.  A run stopped before the report file is
    opened prints nothing and leaves the path of the report file as it
    found it; a run stopped by a failing write of [json.dump] prints
    nothing and leaves there the characters written so far. *)
Theorem report_is_written_before_it_is_printed w files :
  (stdout (final w files) <> "" ->
     exists r, report (final w files) = Some r
               /\ fs (final w files) !! output_path w = Some (Json.dumps (report_json r)))
  /\ (credential_missing w
      \/ fs_fault w (OpMakedirs (OUTPUT_DIR w)) <> None
      \/ fs_fault w (OpOpenWrite (output_path w)) <> None ->
      stdout (final w files) = ""
      /\ fs (final w files) !! output_path w = files !! output_path w)
  /\ (forall key n e,
        reaches_report w key ->
        fs_fault w (OpOpenWrite (output_path w)) = None ->
        first_fault (fun k => fs_fault w (OpWrite (output_path w) k)) 0
          (Json.dumps (report_json (probed_report w key))) = Some (n, e) ->
        (run w files).2 = Raise e
        /\ stdout (final w files) = ""
        /\ exists r, report (final w files) = Some r
                     /\ fs (final w files) !! output_path w
                        = Some (Py.slice_to n (Json.dumps (report_json r)))).
Proof.
  assert (Hclip : forall key, clip_after w key 1 files !! output_path w
                              = files !! output_path w).
  { intros key. apply clip_after_frame. intros H. by apply (audio_path_not_output_path w). }
  split; [|split].
  - intros Hout. destruct (credential_cases w) as [Hmiss|[key Hc]].
    { unfold final in Hout. by rewrite (run_missing _ _ Hmiss) in Hout. }
    unfold final in *. rewrite (run_files w files key Hc) in *.
    destruct (fs_fault w (OpMakedirs _)); [done|].
    revert Hout. persisted_cases w key; try done; intros _;
      (eexists; split; [reflexivity | apply lookup_insert_eq]).
  - intros Hstop. destruct (credential_cases w) as [Hmiss|[key Hc]].
    { unfold final. by rewrite (run_missing _ _ Hmiss). }
    destruct Hstop as [Hmiss|Hstop]; [by destruct (credential_exclusive _ _ Hc)|].
    unfold final. rewrite (run_files w files key Hc).
    destruct (fs_fault w (OpMakedirs _)); [done|].
    destruct Hstop as [?|Hopen]; [done|]. unfold persisted.
    destruct (fs_fault w (OpOpenWrite _)); [|done]. split; [done|apply Hclip].
  - intros key n e [Hc Hm] Hopen Hdump.
    unfold final. rewrite (run_files w files key Hc), Hm. unfold persisted, dump_fault.
    fold (probed_text w key) in Hdump. rewrite Hopen, Hdump.
    repeat split. eexists; split; [reflexivity | apply lookup_insert_eq].
Qed.

Lemma report_is_written_before_it_is_printed_witness :
  (run Scenario.disk_full ∅).2 = Raise (Exn "OSError" "[Errno 28] No space left on device")
  /\ stdout (final Scenario.disk_full ∅) = ""
  /\ exists r, report (final Scenario.disk_full ∅) = Some r
               /\ fs (final Scenario.disk_full ∅) !! output_path Scenario.disk_full
                  = Some (Py.slice_to 40 (Json.dumps (report_json r))).
Proof.
  apply (proj2 (proj2 (report_is_written_before_it_is_printed Scenario.disk_full ∅))
           "sk-test" 40%nat (Exn "OSError" "[Errno 28] No space left on device")).
  - split; [split; [reflexivity | discriminate] | reflexivity].
  - reflexivity.
  - vm_compute. reflexivity.
Defined.

Lemma run_touches_two_paths_aux w files q :
  q <> audio_path w -> q <> output_path w ->
  fs (final w files) !! q = files !! q.
Proof.
  intros Hclip Hout. destruct (credential_cases w) as [Hmiss|[key Hc]].
  - unfold final. by rewrite (run_missing _ _ Hmiss).
  - unfold final. rewrite (run_files w files key Hc).
    destruct (fs_fault w (OpMakedirs _)); [done|].
    persisted_cases w key;
      cbn [probed_state half_saved_state half_printed_state saved_state fs fst];
      rewrite ?lookup_insert_ne by done; by apply clip_after_frame.
Qed.

(** X3.  A run touches two paths at most: the temporary clip and the
    report file.  Every other file is left as it was. *)
Theorem run_touches_two_paths w files q :
  q <> audio_path w -> q <> output_path w ->
  fs (final w files) !! q = files !! q.
Proof. apply run_touches_two_paths_aux. Qed.

Lemma run_touches_two_paths_witness :
  fs (final Sample.healthy {[ "/srv/batch/notes.txt" := "keep" ]}) !! "/srv/batch/notes.txt"
  = ({[ "/srv/batch/notes.txt" := "keep" ]} : gmap string string) !! "/srv/batch/notes.txt".
Proof.
  apply (run_touches_two_paths Sample.healthy).
  - vm_compute. discriminate.
  - vm_compute. discriminate.
Defined.



(** X5.  The transcription request is sent only after the clip has been
    received in full, written and read back, and its [audio_file] is the
    base64 text of exactly the bytes received in this run, whatever the
    clip path held before. *)
Theorem whisper_payload_is_downloaded_bytes w files key req :
  reaches_report w key ->
  In (NetPost req) (net (final w files)) ->
  exists stream,
    http_get_stream w (pick w 1 audio_sources) = Ok stream
    /\ s_error stream = None
    /\ fs_fault w (OpOpenWrite (audio_path w)) = None
    /\ fs_fault w (OpOpenRead (audio_path w)) = None
    /\ req = whisper_request key (Base64.b64encode (String.concat "" (s_chunks stream))).
Proof.
  intros Hr Hin. destruct (final_report w files key Hr) as (_ & _ & Hnet).
  rewrite Hnet in Hin. unfold probed_calls, gpt_calls, whisper_calls, ocr_calls in Hin.
  rewrite !in_app_iff in Hin. destruct Hin as [H|[H|H]].
  - destruct H as [H|H]; [done|]. destruct (http_get w _); [|done]. by destruct H as [H|[]].
  - destruct H as [H|H]; [done|].
    destruct (whisper_download w 1) as [data|] eqn:Hdown; [|done].
    destruct H as [[= <-]|[]].
    destruct (whisper_download_ok _ _ _ Hdown) as (stream & ? & ? & ? & ? & ->).
    by exists stream.
  - destruct H as [H|H]; [done|]. destruct (http_get w _); [|done]. by destruct H as [H|[]].
Qed.

Lemma whisper_payload_is_downloaded_bytes_witness :
  exists stream,
    http_get_stream Sample.healthy (pick Sample.healthy 1 audio_sources) = Ok stream
    /\ s_error stream = None
    /\ fs_fault Sample.healthy (OpOpenWrite (audio_path Sample.healthy)) = None
    /\ fs_fault Sample.healthy (OpOpenRead (audio_path Sample.healthy)) = None
    /\ whisper_request "sk-test" "T2dnUw=="
       = whisper_request "sk-test" (Base64.b64encode (String.concat "" (s_chunks stream))).
Proof.
  apply (whisper_payload_is_downloaded_bytes Sample.healthy Scenario.stale_clip).
  - split; [split; [reflexivity | discriminate] | reflexivity].
  - vm_compute. right. right. right. left. reflexivity.
Defined.

(** X6.  Whatever fails, a run that reaches the probes makes three draws
    and three fetches, in the order text, audio, image, each to a
    candidate of its own list: the choice of the later probes does not
    move when an earlier probe fails. *)
Theorem three_fetches_in_order w files key :
  reaches_report w key ->
  List.filter is_get (net (final w files))
  = [ NetGet (pick w 0 text_sources) false 20;
      NetGet (pick w 1 audio_sources) true 30;
      NetGet (pick w 2 image_sources) false 20 ]
  /\ In (pick w 0 text_sources) text_sources
  /\ In (pick w 1 audio_sources) audio_sources
  /\ In (pick w 2 image_sources) image_sources
  /\ draws (final w files) = 3%nat.
Proof.
  intros Hr. destruct (final_report w files key Hr) as (_ & _ & Hnet).
  rewrite Hnet. split; [|repeat split; try (by apply pick_In)].
  - unfold probed_calls, gpt_calls, whisper_calls, ocr_calls.
    rewrite !List.filter_app.
    destruct (http_get w (pick w 0 text_sources)), (whisper_download w 1),
      (http_get w (pick w 2 image_sources)); reflexivity.
  - unfold final. rewrite (run_files w files key (proj1 Hr)), (proj2 Hr).
    by persisted_cases w key.
Qed.

Lemma three_fetches_in_order_witness :
  List.filter is_get (net (final Sample.all_down ∅))
  = [ NetGet (pick Sample.all_down 0 text_sources) false 20;
      NetGet (pick Sample.all_down 1 audio_sources) true 30;
      NetGet (pick Sample.all_down 2 image_sources) false 20 ]
  /\ In (pick Sample.all_down 0 text_sources) text_sources
  /\ In (pick Sample.all_down 1 audio_sources) audio_sources
  /\ In (pick Sample.all_down 2 image_sources) image_sources
  /\ draws (final Sample.all_down ∅) = 3%nat.
Proof.
  apply (three_fetches_in_order Sample.all_down ∅ "sk-test").
  split; [split; [reflexivity | discriminate] | reflexivity].
Defined.

(** X7.  The [input] of a success entry is one of the candidate URLs of
    its model. *)
Theorem success_input_is_candidate (m : Model) w files input preview :
  entry (model_key m) (final w files) = Some (Success input preview) ->
  In input (model_sources m).
Proof.
  intros H. destruct (final_cases w files) as [Hinit|[key Hr]];
    [by rewrite Hinit in H|].
  rewrite (final_entry m w files key Hr) in H. injection H as H.
  destruct m; cbn [model_record model_sources] in *.
  - unfold gpt_outcome in H.
    destruct (http_get w _); [simpl in H|done].
    destruct (chat_create w _) as [resp|]; [simpl in H|done].
    destruct (first_content_preview resp); [simpl in H|done].
    injection H as <- _. by apply pick_In.
  - unfold whisper_record, whisper_history in H.
    destruct (whisper_outcome w key 1) as [record|] eqn:Hout; [|done].
    destruct (fs_fault w (OpRemove _)); [done|]. cbn [List.last] in H. subst record.
    apply whisper_outcome_success in Hout. injection Hout as ->. by apply pick_In.
  - unfold ocr_outcome in H.
    destruct (http_get w _); [simpl in H|done].
    destruct (chat_create w _) as [resp|]; [simpl in H|done].
    destruct (first_content_preview resp); [simpl in H|done].
    injection H as <- _. by apply pick_In.
Qed.

Lemma success_input_is_candidate_witness :
  entry (model_key DeepseekOcr) (final Sample.healthy ∅)
    = Some (Success "https://upload.wikimedia.org/wikipedia/commons/4/4b/ReceiptSwiss.jpg"
              "A short summary.")
  /\ In "https://upload.wikimedia.org/wikipedia/commons/4/4b/ReceiptSwiss.jpg"
        (model_sources DeepseekOcr).
Proof.
  assert (H : entry (model_key DeepseekOcr) (final Sample.healthy ∅)
              = Some (Success
                        "https://upload.wikimedia.org/wikipedia/commons/4/4b/ReceiptSwiss.jpg"
                        "A short summary."))
    by (vm_compute; reflexivity).
  split; [exact H|].
  exact (success_input_is_candidate DeepseekOcr Sample.healthy ∅ _ _ H).
Defined.

(** ** The inference calls *)

Lemma slice_to_short n s : (String.length s <= n)%nat -> Py.slice_to n s = s.
Proof.
  revert s; induction n as [|n IH]; intros [|c s] Hlen; simpl in Hlen;
    try done; try lia.
  change (Py.slice_to (S n) (String c s)) with (String c (Py.slice_to n s)).
  by rewrite IH by lia.
Qed.

(** X8.  A model is never called without its input: when the fetch of
    the document (of the image) raises, the entry of the text (image)
    model is the failure record of that exception and no completion
    request for that model is sent. *)
Theorem no_completion_without_input w files key :
  reaches_report w key ->
  (forall e, http_get w (pick w 0 text_sources) = Raise e ->
     entry gpt_key (final w files) = Some (Failure (exn_str e))
     /\ forall req, In (NetChat req) (net (final w files)) ->
                    c_model req <> "openai/gpt-oss-120b")
  /\ (forall e, http_get w (pick w 2 image_sources) = Raise e ->
        entry ocr_key (final w files) = Some (Failure (exn_str e))
        /\ forall req, In (NetChat req) (net (final w files)) ->
                       c_model req <> "deepseek-ai/DeepSeek-OCR").
Proof.
  intros Hr. destruct (final_report w files key Hr) as (_ & _ & Hnet).
  pose proof (final_entry GptOss120b w files key Hr) as Hgpt.
  pose proof (final_entry DeepseekOcr w files key Hr) as Hocr.
  cbn [model_key model_record] in Hgpt, Hocr. rewrite Hgpt, Hocr, Hnet.
  split; intros e He.
  - split; [unfold gpt_outcome; by rewrite He|].
    intros req Hin.
    destruct (probed_chat_requests w key req Hin) as [(doc & Hdoc & _)|(img & _ & ->)];
      [congruence | discriminate].
  - split; [unfold ocr_outcome; by rewrite He|].
    intros req Hin.
    destruct (probed_chat_requests w key req Hin) as [(doc & _ & ->)|(img & Himg & _)];
      [discriminate | congruence].
Qed.

Lemma no_completion_without_input_witness :
  entry gpt_key (final Sample.text_down ∅)
    = Some (Failure "Max retries exceeded with url: /files/84/84-0.txt")
  /\ forall req, In (NetChat req) (net (final Sample.text_down ∅)) ->
                 c_model req <> "openai/gpt-oss-120b".
Proof.
  apply (proj1 (no_completion_without_input Sample.text_down ∅ "sk-test"
                  ltac:(split; [split; [reflexivity | discriminate] | reflexivity]))
           (Exn "ConnectionError" "Max retries exceeded with url: /files/84/84-0.txt")).
  reflexivity.
Defined.

(** X9.  Every completion request goes to the gateway with the key read
    from the environment, a single [user] message and temperature 0; a
    request for the text model carries the text tenant header and a
    budget of 300 tokens, a request for the image model the image tenant
    header and a budget of 500 tokens.  No other model is ever asked. *)
Theorem completion_requests_are_tenant_bound w files key req :
  reaches_report w key ->
  In (NetChat req) (net (final w files)) ->
  api_key (c_client req) = key
  /\ base_url (c_client req) = "https://api.simplismart.live"
  /\ c_role req = "user"
  /\ c_temperature req = 0%Z
  /\ ((c_model req = "openai/gpt-oss-120b"
       /\ header_id (c_client req) = "524436ef-5d4c-4d55-9351-71d67036b92b"
       /\ c_max_tokens req = 300%nat
       /\ exists text, c_content req = CText text)
      \/ (c_model req = "deepseek-ai/DeepSeek-OCR"
          /\ header_id (c_client req) = "81095ce8-515a-442a-8514-d4424ec84ce2"
          /\ c_max_tokens req = 500%nat
          /\ exists image_b64,
               c_content req
               = CParts [PartText "Extract all readable text from this image";
                         PartImageBase64 image_b64])).
Proof.
  intros Hr Hin. destruct (final_report w files key Hr) as (_ & _ & Hnet).
  rewrite Hnet in Hin.
  destruct (probed_chat_requests w key req Hin) as [(doc & _ & ->)|(img & _ & ->)].
  - repeat split. left. repeat split. by eexists.
  - repeat split. right. repeat split. by eexists.
Qed.

Lemma completion_requests_are_tenant_bound_witness :
  api_key (c_client (ocr_request "sk-test" "QWxpY2Ugd2FzIGJlZ2lubmluZyB0byBnZXQgdmVyeSB0aXJlZA=="))
    = "sk-test"
  /\ In (NetChat (ocr_request "sk-test" "QWxpY2Ugd2FzIGJlZ2lubmluZyB0byBnZXQgdmVyeSB0aXJlZA=="))
        (net (final Sample.healthy ∅)).
Proof.
  assert (Hin : In (NetChat (ocr_request "sk-test"
                      "QWxpY2Ugd2FzIGJlZ2lubmluZyB0byBnZXQgdmVyeSB0aXJlZA=="))
                   (net (final Sample.healthy ∅))).
  { vm_compute. do 5 right. left. reflexivity. }
  split; [|exact Hin].
  apply (completion_requests_are_tenant_bound Sample.healthy ∅ "sk-test" _
           ltac:(split; [split; [reflexivity | discriminate] | reflexivity]) Hin).
Defined.

(** X10.  The image probe sends the base64 text of the bytes it fetched,
    whatever the status of the fetch, and its entry is decided by the
    answer alone: failure with [str(e)] when the call raises, failure
    [list index out of range] when the answer has no choice, failure
    ['NoneType' object is not subscriptable] when the first choice has
    no content, and otherwise success with the first 300 characters of
    that content. *)
Theorem image_entry_decided_by_completion w files key img :
  reaches_report w key ->
  http_get w (pick w 2 image_sources) = Ok img ->
  In (NetChat (ocr_request key (Base64.b64encode (body img)))) (net (final w files))
  /\ entry ocr_key (final w files)
     = Some match chat_create w (ocr_request key (Base64.b64encode (body img))) with
            | Raise e => Failure (exn_str e)
            | Ok resp =>
                match choices resp with
                | [] => Failure "list index out of range"
                | None :: _ => Failure "'NoneType' object is not subscriptable"
                | Some content :: _ =>
                    Success (pick w 2 image_sources) (Py.slice_to 300 content)
                end
            end.
Proof.
  intros Hr Himg. destruct (final_report w files key Hr) as (_ & _ & Hnet).
  pose proof (final_entry DeepseekOcr w files key Hr) as Hocr.
  cbn [model_key model_record] in Hocr. rewrite Hocr, Hnet. split.
  - unfold probed_calls, ocr_calls. rewrite Himg, !in_app_iff. right. right.
    right. by left.
  - unfold ocr_outcome. rewrite Himg. cbn [and_then].
    destruct (chat_create w _) as [resp|e]; [cbn [and_then settle]|done].
    unfold first_content_preview. by destruct (choices resp) as [|[content|] ?].
Qed.

Lemma image_entry_decided_by_completion_witness :
  In (NetChat (ocr_request "sk-test"
                 (Base64.b64encode "Alice was beginning to get very tired")))
     (net (final Scenario.ocr_no_choice ∅))
  /\ entry ocr_key (final Scenario.ocr_no_choice ∅)
     = Some (Failure "list index out of range").
Proof.
  apply (image_entry_decided_by_completion Scenario.ocr_no_choice ∅ "sk-test"
           (mkHttpResponse 200 "Alice was beginning to get very tired")).
  - split; [split; [reflexivity | discriminate] | reflexivity].
  - reflexivity.
Defined.

(** X11.  Nothing is cut from short texts.  A document of at most 2000
    characters is sent whole to the text model, whatever the model then
    answers; and a first choice of at most 300 characters is stored whole
    as the preview, whatever the length of the document. *)
Theorem short_texts_are_kept_whole w files key doc :
  reaches_report w key ->
  http_get w (pick w 0 text_sources) = Ok doc ->
  ((String.length (body doc) <= 2000)%nat ->
     In (NetChat (gpt_request key (body doc))) (net (final w files)))
  /\ (forall resp content rest,
        chat_create w (gpt_request key (Py.slice_to 2000 (body doc))) = Ok resp ->
        choices resp = Some content :: rest ->
        (String.length content <= 300)%nat ->
        entry gpt_key (final w files) = Some (Success (pick w 0 text_sources) content)).
Proof.
  intros Hr Hdoc.
  destruct (final_report w files key Hr) as (_ & _ & Hnet).
  pose proof (final_entry GptOss120b w files key Hr) as Hgpt.
  cbn [model_key model_record] in Hgpt. rewrite Hgpt, Hnet. split.
  - intros Hlen. unfold probed_calls, gpt_calls. rewrite Hdoc, (slice_to_short _ _ Hlen).
    rewrite !in_app_iff. left. right. by left.
  - intros resp content rest Hchat Hchoices Hshort.
    unfold gpt_outcome. rewrite Hdoc. cbn [and_then]. rewrite Hchat. cbn [and_then].
    unfold first_content_preview. rewrite Hchoices. cbn [and_then settle].
    by rewrite (slice_to_short _ _ Hshort).
Qed.

Lemma short_texts_are_kept_whole_witness :
  In (NetChat (gpt_request "sk-test" "Alice was beginning to get very tired"))
     (net (final Sample.healthy ∅))
  /\ String.length (Py.zeros 2500) = 2500%nat
  /\ entry gpt_key (final Scenario.long_document ∅)
     = Some (Success (pick Scenario.long_document 0 text_sources) "A short summary.").
Proof.
  split; [|split; [vm_compute; reflexivity|]].
  - apply (proj1 (short_texts_are_kept_whole Sample.healthy ∅ "sk-test"
                    (mkHttpResponse 200 "Alice was beginning to get very tired")
                    ltac:(split; [split; [reflexivity | discriminate] | reflexivity])
                    eq_refl)).
    apply Nat.leb_le. reflexivity.
  - apply (proj2 (short_texts_are_kept_whole Scenario.long_document ∅ "sk-test"
                    (mkHttpResponse 200 (Py.zeros 2500))
                    ltac:(split; [split; [reflexivity | discriminate] | reflexivity])
                    eq_refl)
             (mkChatCompletion [Some "A short summary."]) "A short summary." []).
    + reflexivity.
    + reflexivity.
    + apply Nat.leb_le. reflexivity.
Defined.

(** ** The report file *)

(** X12.  The report a completed run persists carries the date its file
    name is built from, and the time of day of the same run. *)
Theorem report_carries_the_date_of_its_name w files :
  completes w files ->
  exists r, report (final w files) = Some r
            /\ r_date r = isoformat (today w)
            /\ r_run_time r = strftime_HM (now w)
            /\ fs (final w files)
                 !! (OUTPUT_DIR w ++ "/daily_model_health_" ++ r_date r ++ ".json")
               = Some (Json.dumps (report_json r)).
Proof.
  intros Hdone. destruct (completes_credential _ _ Hdone) as [key Hc].
  destruct (final_complete w files key Hc Hdone) as (_ & files' & _ & ->).
  exists (probed_report w key). repeat split.
  cbn [probed_report r_date]. rewrite <- output_path_eq. apply lookup_insert_eq.
Qed.

Lemma report_carries_the_date_of_its_name_witness :
  exists r, report (final Sample.healthy ∅) = Some r
            /\ r_date r = isoformat (today Sample.healthy)
            /\ r_run_time r = strftime_HM (now Sample.healthy)
            /\ fs (final Sample.healthy ∅)
                 !! (OUTPUT_DIR Sample.healthy ++ "/daily_model_health_" ++ r_date r ++ ".json")
               = Some (Json.dumps (report_json r)).
Proof.
  apply (report_carries_the_date_of_its_name Sample.healthy ∅). vm_compute. reflexivity.
Defined.

(** X13.  For the dates [datetime.date] can hold, [isoformat] is ten
    characters long and different dates have different texts, so the
    name of the report file tells the day. *)
Theorem isoformat_is_fixed_width_and_injective d1 d2 :
  valid_date d1 -> valid_date d2 ->
  String.length (isoformat d1) = 10%nat
  /\ (isoformat d1 = isoformat d2 -> d1 = d2).
Proof.
  intros H1 H2. split; [by apply isoformat_length | by apply isoformat_inj].
Qed.

Lemma isoformat_is_fixed_width_and_injective_witness :
  String.length (isoformat (mkDate 2024 3 9)) = 10%nat
  /\ (isoformat (mkDate 2024 3 9) = isoformat (mkDate 987 12 31) ->
      mkDate 2024 3 9 = mkDate 987 12 31).
Proof.
  apply (isoformat_is_fixed_width_and_injective (mkDate 2024 3 9) (mkDate 987 12 31)).
  - unfold valid_date; simpl.
    repeat split; apply Nat.leb_le; reflexivity.
  - unfold valid_date; simpl.
    repeat split; apply Nat.leb_le; reflexivity.
Defined.

(** X14.  A run leaves the report file of every other day, in the same
    directory, exactly as it found it: reports of different days
    accumulate. *)
Theorem report_of_another_day_survives w1 w2 files :
  cwd w2 = cwd w1 ->
  valid_date (today w1) -> valid_date (today w2) ->
  today w2 <> today w1 ->
  fs (final w2 files) !! output_path w1 = files !! output_path w1.
Proof.
  intros Hcwd H1 H2 Hday.
  apply run_touches_two_paths_aux.
  - assert (audio_path w2 = audio_path w1) as ->
      by (unfold audio_path, BASE_DIR; by rewrite Hcwd).
    intros H. by apply (audio_path_not_output_path w1).
  - intros H. apply Hday. by apply output_path_inj.
Qed.

Lemma report_of_another_day_survives_witness :
  fs (final Scenario.next_day (fs (final Sample.healthy ∅))) !! output_path Sample.healthy
  = fs (final Sample.healthy ∅) !! output_path Sample.healthy.
Proof.
  apply (report_of_another_day_survives Sample.healthy Scenario.next_day).
  - reflexivity.
  - unfold valid_date; simpl. repeat split; apply Nat.leb_le; reflexivity.
  - unfold valid_date; simpl. repeat split; apply Nat.leb_le; reflexivity.
  - discriminate.
Defined.

(** ** Base64 *)

Lemma sextet_base64 n :
  (Py.contains (Base64.sextet n) Base64.alphabet || Ascii.eqb (Base64.sextet n) "=") = true.
Proof.
  unfold Base64.sextet. generalize (N.to_nat (N.land n 63)). intros m.
  do 64 (destruct m as [|m]; [reflexivity|]). reflexivity.
Qed.

Lemma b64encode_triple a b c rest :
  Base64.b64encode (String a (String b (String c rest)))
  = String (Base64.sextet (N.shiftr (N.lor (N.lor (N.shiftl (Py.code a) 16)
                                               (N.shiftl (Py.code b) 8)) (Py.code c)) 18))
      (String (Base64.sextet (N.shiftr (N.lor (N.lor (N.shiftl (Py.code a) 16)
                                                 (N.shiftl (Py.code b) 8)) (Py.code c)) 12))
        (String (Base64.sextet (N.shiftr (N.lor (N.lor (N.shiftl (Py.code a) 16)
                                                   (N.shiftl (Py.code b) 8)) (Py.code c)) 6))
          (String (Base64.sextet (N.lor (N.lor (N.shiftl (Py.code a) 16)
                                          (N.shiftl (Py.code b) 8)) (Py.code c)))
            (Base64.b64encode rest)))).
Proof. reflexivity. Qed.

Lemma b64encode_shape data :
  base64_text (Base64.b64encode data) = true
  /\ String.length (Base64.b64encode data) = (4 * ((String.length data + 2) / 3))%nat.
Proof.
  remember (String.length data) as n eqn:Hn. revert data Hn.
  induction n as [n IH] using lt_wf_ind. intros data Hn.
  destruct data as [|a [|b [|c rest]]]; subst n.
  - split; reflexivity.
  - split; [|reflexivity].
    change (Base64.b64encode (String a ""))
      with (String (Base64.sextet (N.shiftr (N.shiftl (Py.code a) 16) 18))
             (String (Base64.sextet (N.shiftr (N.shiftl (Py.code a) 16) 12)) "==")).
    cbn [base64_text]. by rewrite !sextet_base64.
  - split; [|reflexivity].
    change (Base64.b64encode (String a (String b "")))
      with (String (Base64.sextet (N.shiftr (N.lor (N.shiftl (Py.code a) 16)
                                               (N.shiftl (Py.code b) 8)) 18))
             (String (Base64.sextet (N.shiftr (N.lor (N.shiftl (Py.code a) 16)
                                                 (N.shiftl (Py.code b) 8)) 12))
               (String (Base64.sextet (N.shiftr (N.lor (N.shiftl (Py.code a) 16)
                                                   (N.shiftl (Py.code b) 8)) 6)) "="))).
    cbn [base64_text]. by rewrite !sextet_base64.
  - rewrite b64encode_triple.
    destruct (IH (String.length rest) ltac:(simpl; lia) rest eq_refl)
      as [Htext Hlen].
    split.
    + cbn [base64_text]. by rewrite !sextet_base64, Htext.
    + assert (Hdiv : ((S (S (S (String.length rest))) + 2) / 3
                      = S ((String.length rest + 2) / 3))%nat).
      { replace (S (S (S (String.length rest))) + 2)%nat
          with ((String.length rest + 2) + 1 * 3)%nat by lia.
        rewrite Nat.div_add by lia. lia. }
      change (String.length (String a (String b (String c rest))))
        with (S (S (S (String.length rest)))).
      rewrite Hdiv. cbn [String.length]. rewrite Hlen. lia.
Qed.

(** X16.  What the audio and the image probe put in their requests is
    well-formed base64: only characters of the alphabet and the padding
    sign, four characters for every three bytes, the last group
    padded. *)
Theorem b64encode_is_well_formed data :
  base64_text (Base64.b64encode data) = true
  /\ String.length (Base64.b64encode data) = (4 * ((String.length data + 2) / 3))%nat.
Proof. apply b64encode_shape. Qed.

(** ** Assignments *)

(** X17.  In a run that reaches the probes, the key of the text model is
    assigned once, then the key of the audio model once or twice, then
    the key of the image model once.  The audio key is assigned twice
    only when [os.remove] raises: the first record is then a success and
    the second the failure record of that exception. *)
Theorem assignments_in_order w files key :
  reaches_report w key ->
  exists text_record audio_records image_record,
    assigned (final w files)
    = (gpt_key, text_record) :: map (pair whisper_key) audio_records
      ++ [(ocr_key, image_record)]
    /\ ((exists record, audio_records = [record])
        \/ (exists input preview e,
              fs_fault w (OpRemove (audio_path w)) = Some e
              /\ audio_records = [Success input preview; Failure (exn_str e)])).
Proof.
  intros Hr. destruct (final_report w files key Hr) as (_ & Hass & _).
  rewrite Hass. unfold probed_assignments.
  exists (settle (gpt_outcome w key 0)), (whisper_history w key 1),
    (settle (ocr_outcome w key 2)).
  split; [reflexivity|]. unfold whisper_history.
  destruct (whisper_outcome w key 1) as [record|e] eqn:Hout; [|left; by eexists].
  destruct (fs_fault w (OpRemove _)) as [e|]; [|left; by eexists].
  right. rewrite (whisper_outcome_success _ _ _ _ Hout). by do 3 eexists.
Qed.

Lemma assignments_in_order_witness :
  exists text_record audio_records image_record,
    assigned (final Sample.stuck_clip ∅)
    = (gpt_key, text_record) :: map (pair whisper_key) audio_records
      ++ [(ocr_key, image_record)]
    /\ ((exists record, audio_records = [record])
        \/ (exists input preview e,
              fs_fault Sample.stuck_clip (OpRemove (audio_path Sample.stuck_clip)) = Some e
              /\ audio_records = [Success input preview; Failure (exn_str e)])).
Proof.
  apply (assignments_in_order Sample.stuck_clip ∅ "sk-test").
  split; [split; [reflexivity | discriminate] | reflexivity].
Defined.
